(** * Data access layer of the site-builder backend ([backend/crud.py])

    A shallow embedding of the CRUD functions over an explicit relational
    store, together with the properties stated for them.

    - The SQLAlchemy session is a record of tables, each table a list of rows
      in storage order.  [query(...).filter(...).all()] is [filter] on the
      table, [.first()] is the head of that list.
    - A function that writes ([add], [delete], attribute assignment followed
      by [commit]) is a computation in the monad [Crud]: it threads the store
      and ends either in a value or in a raised [HTTPException].  The store is
      returned in both cases, since whatever was committed before a [raise]
      stays committed.
    - Read-only functions are plain functions of the store.
    - [bcrypt] is an external library: its two entry points are parameters of
      the development, and the salt drawn by [bcrypt.gensalt()] is an explicit
      argument of the functions that hash. *)

From Stdlib Require Import ZArith String List Bool Lia.
From Stdlib Require Import Permutation Sorted DecimalString.
Import ListNotations.

Local Open Scope Z_scope.
Local Open Scope string_scope.
Local Open Scope list_scope.

(** ** Python values *)

(** Truthiness of the values the source tests with [if x:] / [if not x:]. *)
Definition truthy_str (s : option string) : bool :=
  match s with
  | None => false
  | Some s => negb (s =? "")
  end.

Definition truthy_int (n : option Z) : bool :=
  match n with
  | None => false
  | Some n => negb (n =? 0)%Z
  end.

Definition truthy_list {A} (l : option (list A)) : bool :=
  match l with
  | None | Some [] => false
  | Some (_ :: _) => true
  end.

(** [str(n)] for a Python [int]. *)
Definition str (n : Z) : string := NilZero.string_of_int (Z.to_int n).

(** Equality of a nullable integer column with a value: a NULL never matches. *)
Definition col_eqb (c : option Z) (v : Z) : bool :=
  match c with
  | None => false
  | Some c => (c =? v)%Z
  end.

(** [column.in_(values)] *)
Definition in_ (v : Z) (values : list Z) : bool :=
  existsb (fun w => (v =? w)%Z) values.

(** [.first()] *)
Definition first {A} (rows : list A) : option A := hd_error rows.

(** ** models: the rows of the six tables

    Only the columns that the data access layer reads or writes are kept.
    A column is an [option] where the source lets it be [None] (a defaulted
    argument, a value tested for truthiness before it is stored); the other
    columns, [Section.title] among them, hold a value in every row. *)

Module User.
Record t := mk { id : Z; email : string; password : string }.
End User.

Module Domain.
Record t := mk { id : Z; user_id : Z }.
End Domain.

Module Page.
Record t := mk { id : Z; domain_id : Z; title : string; hierarchy : Z }.
End Page.

Module Section_.
Record t := mk { id : Z; page_id : option Z; type : option string;
                 title : string }.
End Section_.

Module SEO.
Record t := mk { id : Z; domain_id : Z }.
End SEO.

Module Media.
Record t := mk { id : Z; title : option string; file_url : string;
                 type : string; domain_id : Z; section_id : option Z;
                 uploaded_by : Z; text : string }.
End Media.

(** ** schemas: the input objects ([.dict()] of each is the record itself) *)

Module UserCreate.
Record t := mk { email : string; password : string }.
End UserCreate.

Module DomainCreate.
Record t := mk { user_id : Z }.
End DomainCreate.

Module SectionCreate.
Record t := mk { page_id : option Z; type : option string; title : string }.
End SectionCreate.

Module PageCreate.
Record t := mk { domain_id : Z; title : string; hierarchy : Z;
                 sections : option (list SectionCreate.t) }.
End PageCreate.

Module SEOCreate.
Record t := mk { domain_id : Z }.
End SEOCreate.

Module MediaCreate.
Record t := mk { title : option string; file_url : string; type : string;
                 domain_id : Z; section_id : option Z; uploaded_by : Z;
                 text : string }.
End MediaCreate.

(** ** The store behind a [Session] *)

Record Session := mkSession {
  users : list User.t;
  domains : list Domain.t;
  pages : list Page.t;
  sections : list Section_.t;
  seo : list SEO.t;
  media : list Media.t
}.

Definition empty_session : Session := mkSession [] [] [] [] [] [].

(** The key the database generates for a new row: above every key in use. *)
Definition next_id (ids : list Z) : Z := 1 + fold_right Z.max 0 ids.

Definition set_users (f : list User.t -> list User.t) (db : Session) :=
  mkSession (f (users db)) (domains db) (pages db) (sections db) (seo db) (media db).
Definition set_domains (f : list Domain.t -> list Domain.t) (db : Session) :=
  mkSession (users db) (f (domains db)) (pages db) (sections db) (seo db) (media db).
Definition set_pages (f : list Page.t -> list Page.t) (db : Session) :=
  mkSession (users db) (domains db) (f (pages db)) (sections db) (seo db) (media db).
Definition set_sections (f : list Section_.t -> list Section_.t) (db : Session) :=
  mkSession (users db) (domains db) (pages db) (f (sections db)) (seo db) (media db).
Definition set_seo (f : list SEO.t -> list SEO.t) (db : Session) :=
  mkSession (users db) (domains db) (pages db) (sections db) (f (seo db)) (media db).
Definition set_media (f : list Media.t -> list Media.t) (db : Session) :=
  mkSession (users db) (domains db) (pages db) (sections db) (seo db) (f (media db)).

(** ** Exceptions and the monad of the writing functions *)

Record HTTPException := mkHTTPException { status_code : Z; detail : string }.

(** The five exceptions raised in the file, under the names of the error
    taxonomy. *)
Definition Conflict := mkHTTPException 400 "Email already registered".
Definition Forbidden := mkHTTPException 403 "Old password is incorrect".
Definition InvalidArgument_section := mkHTTPException 400 "Section type is required".
Definition InvalidArgument_media := mkHTTPException 400 "Media title is required".
Definition NotFound := mkHTTPException 404 "Media item not found".

Inductive Outcome (A : Type) : Type :=
| Return (a : A)
| Raise (e : HTTPException).
Arguments Return {A} a.
Arguments Raise {A} e.

Definition Crud (A : Type) : Type := Session -> Outcome A * Session.

Definition ret {A} (a : A) : Crud A := fun db => (Return a, db).
Definition raise {A} (e : HTTPException) : Crud A := fun db => (Raise e, db).
Definition bind {A B} (c : Crud A) (k : A -> Crud B) : Crud B :=
  fun db =>
    match c db with
    | (Return a, db') => k a db'
    | (Raise e, db') => (Raise e, db')
    end.
Definition query {A} (q : Session -> A) : Crud A := fun db => (Return (q db), db).
Definition commit (f : Session -> Session) : Crud unit := fun db => (Return tt, f db).

Declare Scope crud_scope.
Delimit Scope crud_scope with crud.
Notation "x <- c ;; k" := (bind c (fun x => k))
  (at level 61, c at next level, right associativity) : crud_scope.
Notation "c ;;; k" := (bind c (fun _ => k))
  (at level 61, right associativity) : crud_scope.
Local Open Scope crud_scope.

(** [for x in xs: body(x)] *)
Fixpoint for_each {A} (xs : list A) (body : A -> Crud unit) : Crud unit :=
  match xs with
  | [] => ret tt
  | x :: xs' => body x ;;; for_each xs' body
  end.

(** [db.add(row); db.commit(); db.refresh(row)]: the row is appended to its
    table under a generated key and handed back as stored. *)
Definition add_user (d : UserCreate.t) : Crud User.t := fun db =>
  let row := User.mk (next_id (map User.id (users db)))
                     (UserCreate.email d) (UserCreate.password d) in
  (Return row, set_users (fun t => t ++ [row]) db).

Definition add_domain (d : DomainCreate.t) : Crud Domain.t := fun db =>
  let row := Domain.mk (next_id (map Domain.id (domains db)))
                       (DomainCreate.user_id d) in
  (Return row, set_domains (fun t => t ++ [row]) db).

Definition add_page (d : PageCreate.t) : Crud Page.t := fun db =>
  let row := Page.mk (next_id (map Page.id (pages db))) (PageCreate.domain_id d)
                     (PageCreate.title d) (PageCreate.hierarchy d) in
  (Return row, set_pages (fun t => t ++ [row]) db).

Definition add_section (d : SectionCreate.t) : Crud Section_.t := fun db =>
  let row := Section_.mk (next_id (map Section_.id (sections db)))
                         (SectionCreate.page_id d) (SectionCreate.type d)
                         (SectionCreate.title d) in
  (Return row, set_sections (fun t => t ++ [row]) db).

Definition add_seo (d : SEOCreate.t) : Crud SEO.t := fun db =>
  let row := SEO.mk (next_id (map SEO.id (seo db))) (SEOCreate.domain_id d) in
  (Return row, set_seo (fun t => t ++ [row]) db).

Definition add_media (d : MediaCreate.t) : Crud Media.t := fun db =>
  let row := Media.mk (next_id (map Media.id (media db))) (MediaCreate.title d)
                      (MediaCreate.file_url d) (MediaCreate.type d)
                      (MediaCreate.domain_id d) (MediaCreate.section_id d)
                      (MediaCreate.uploaded_by d) (MediaCreate.text d) in
  (Return row, set_media (fun t => t ++ [row]) db).

(** ** Query operators used by [get_pages_by_user_id] *)

(** One row of [Page LEFT OUTER JOIN Section ON Page.id = Section.page_id]:
    a page with one of its sections, or with NULLs when it has none. *)
Definition outerjoin (ps : list Page.t) (ss : list Section_.t)
  : list (Page.t * option Section_.t) :=
  flat_map (fun p =>
    match filter (fun s => col_eqb (Section_.page_id s) (Page.id p)) ss with
    | [] => [(p, None)]
    | matching => map (fun s => (p, Some s)) matching
    end) ps.

(** The values of a list without repetition, in order of first occurrence. *)
Fixpoint distinct (l : list Z) : list Z :=
  match l with
  | [] => []
  | k :: l' => k :: filter (fun j => negb (j =? k)%Z) (distinct l')
  end.

(** [func.count(Section.id)]: the rows of the group whose section is not NULL. *)
Definition count_section_id (group : list (Page.t * option Section_.t)) : Z :=
  Z.of_nat (length (filter (fun r => match snd r with Some _ => true | None => false end)
                           group)).

(** A row of the aggregate query: Page.id, Page.title, Page.hierarchy and
    the count labelled "sections". *)
Module PageRow.
Record t := mk { id : Z; title : string; hierarchy : Z; sections : Z }.
End PageRow.

(** The row selected for the group of key [k]: the page columns are read
    from the first joined row of the group, the count runs over the group. *)
Definition group_row (rows : list (Page.t * option Section_.t)) (k : Z)
  : list PageRow.t :=
  let group := filter (fun r => (Page.id (fst r) =? k)%Z) rows in
  match first group with
  | Some (p, _) =>
      [PageRow.mk (Page.id p) (Page.title p) (Page.hierarchy p)
              (count_section_id group)]
  | None => []
  end.

(** [.group_by(Page.id)] with the four selected columns: one row per distinct
    page id. *)
Definition group_by_page_id (rows : list (Page.t * option Section_.t))
  : list PageRow.t :=
  flat_map (group_row rows) (distinct (map (fun r => Page.id (fst r)) rows)).

(** [.order_by(Page.hierarchy.asc())], as a stable insertion sort.  The
    database is free in the order of rows of equal hierarchy; the properties
    below only use that the result is a sorted rearrangement. *)
Fixpoint insert_by_hierarchy (x : PageRow.t) (l : list PageRow.t) : list PageRow.t :=
  match l with
  | [] => [x]
  | y :: l' =>
      if (PageRow.hierarchy x <=? PageRow.hierarchy y)%Z then x :: y :: l'
      else y :: insert_by_hierarchy x l'
  end.

Definition order_by_hierarchy (l : list PageRow.t) : list PageRow.t :=
  fold_right insert_by_hierarchy [] l.

(** The dict built for each row of the result. *)
Module PageSummary.
Record t := mk { id : string; title : string; hierarchy : Z; sections : Z }.
End PageSummary.

(** The store a computation leaves behind, raised or not. *)
Definition store_after {A} (c : Crud A) (db : Session) : Session := snd (c db).

(** One call of a writing function, with its arguments. *)
Inductive Call : Type :=
| Call_create_user (user : UserCreate.t) (gensalt : string)
| Call_change_password (user : User.t) (old_password new_password gensalt : string)
| Call_create_domain (domain : DomainCreate.t)
| Call_create_page (page : PageCreate.t)
| Call_create_section (section : SectionCreate.t) (page_id : option Z)
| Call_create_seo (s : SEOCreate.t)
| Call_create_media (m : MediaCreate.t)
| Call_delete_media (media_id : Z)
| Call_update_media (media_id : Z) (title text : string) (section_id : option Z).

(** ** The functions of [crud.py] *)

Section WithBcrypt.

(** [bcrypt.hashpw(password, salt)] and [bcrypt.checkpw(password, hashed)];
    the utf-8 encoding and decoding around them is the identity on the
    modelled strings. *)
Variable bcrypt_hashpw : string -> string -> string.
Variable bcrypt_checkpw : string -> string -> bool.

Definition hash_password (password : string) (gensalt : string) : string :=
  bcrypt_hashpw password gensalt.

Definition verify_password (plain_password hashed_password : string) : bool :=
  bcrypt_checkpw plain_password hashed_password.

(** *** Users *)

Definition create_user (user : UserCreate.t) (gensalt : string) : Crud User.t :=
  existing_user <- query (fun db =>
    first (filter (fun u => User.email u =? UserCreate.email user) (users db))) ;;
  match existing_user with
  | Some _ => raise Conflict
  | None =>
      (* the models.User row built from user.dict(), its password replaced *)
      let db_user :=
        UserCreate.mk (UserCreate.email user)
                      (hash_password (UserCreate.password user) gensalt) in
      add_user db_user
  end.

Definition get_users (db : Session) : list User.t := users db.

Definition get_user (db : Session) (user_id : Z) : option User.t :=
  first (filter (fun u => (User.id u =? user_id)%Z) (users db)).

Definition authenticate_user (db : Session) (email password : string)
  : option User.t :=
  match first (filter (fun u => User.email u =? email) (users db)) with
  | None => None
  | Some user =>
      if negb (verify_password password (User.password user)) then None
      else Some user
  end.

(** [user] is a row loaded in the session: assigning its password and
    committing rewrites the stored row of the same key. *)
Definition change_password (user : User.t) (old_password new_password : string)
           (gensalt : string) : Crud User.t :=
  if negb (verify_password old_password (User.password user)) then
    raise Forbidden
  else
    let hashed := hash_password new_password gensalt in
    commit (set_users (map (fun u =>
      if (User.id u =? User.id user)%Z
      then User.mk (User.id u) (User.email u) hashed else u))) ;;;
    ret (User.mk (User.id user) (User.email user) hashed).

(** *** Domains *)

Definition create_domain (domain : DomainCreate.t) : Crud Domain.t :=
  add_domain domain.

Definition get_domains (db : Session) : list Domain.t := domains db.

Definition get_domain (db : Session) (domain_id : Z) : option Domain.t :=
  first (filter (fun d => (Domain.id d =? domain_id)%Z) (domains db)).

Definition get_domains_by_user_id (db : Session) (user_id : Z) : option Domain.t :=
  first (filter (fun d => (Domain.user_id d =? user_id)%Z) (domains db)).

(** *** Sections *)

Definition create_section (section : SectionCreate.t) (page_id : option Z)
  : Crud Section_.t :=
  let data := section in
  let data :=
    if truthy_int page_id
    then SectionCreate.mk page_id (SectionCreate.type data) (SectionCreate.title data)
    else data in
  if negb (truthy_str (SectionCreate.type data)) then
    raise InvalidArgument_section
  else
    add_section data.

Definition get_sections_by_page_and_user (db : Session) (page_id user_id : Z)
  : list Section_.t :=
  let domains := filter (fun d => (Domain.user_id d =? user_id)%Z) (domains db) in
  let domain_ids := map Domain.id domains in
  let page := first (filter (fun p => (Page.id p =? page_id)%Z
                                      && in_ (Page.domain_id p) domain_ids)
                            (pages db)) in
  match page with
  | None => []
  | Some _ =>
      filter (fun s => col_eqb (Section_.page_id s) page_id
                       && negb (Section_.title s =? "is"))
             (sections db)
  end.

(** *** Pages *)

Definition create_page (page : PageCreate.t) : Crud Page.t :=
  db_page <- add_page page ;;
  (if truthy_list (PageCreate.sections page) then
     for_each (match PageCreate.sections page with Some l => l | None => [] end)
              (fun section =>
                 create_section section (Some (Page.id db_page)) ;;; ret tt)
   else ret tt) ;;;
  ret db_page.

Definition get_pages (db : Session) : list Page.t := pages db.

Definition get_page (db : Session) (page_id : Z) : option Page.t :=
  first (filter (fun p => (Page.id p =? page_id)%Z) (pages db)).

Definition get_pages_by_user_id (db : Session) (user_id : Z)
  : list PageSummary.t :=
  let domains := filter (fun d => (Domain.user_id d =? user_id)%Z) (domains db) in
  let domain_ids := map Domain.id domains in
  let results :=
    order_by_hierarchy
      (group_by_page_id
         (filter (fun r => in_ (Page.domain_id (fst r)) domain_ids)
                 (outerjoin (pages db) (sections db)))) in
  map (fun row => PageSummary.mk (str (PageRow.id row)) (PageRow.title row)
                                 (PageRow.hierarchy row) (PageRow.sections row))
      results.

(** *** SEO *)

Definition create_seo (s : SEOCreate.t) : Crud SEO.t := add_seo s.

Definition get_seo (db : Session) : list SEO.t := seo db.

Definition get_seo_by_domain (db : Session) (domain_id : Z) : option SEO.t :=
  first (filter (fun s => (SEO.domain_id s =? domain_id)%Z) (seo db)).

(** *** Media *)

Definition create_media (m : MediaCreate.t) : Crud Media.t :=
  if negb (truthy_str (MediaCreate.title m)) then raise InvalidArgument_media
  else add_media m.

Definition get_media (db : Session) : list Media.t := media db.

Definition get_media_by_section (db : Session) (section_id : Z) : list Media.t :=
  filter (fun m => col_eqb (Media.section_id m) section_id) (media db).

Definition get_media_by_user (db : Session) (user_id : Z) : list Media.t :=
  filter (fun m => (Media.uploaded_by m =? user_id)%Z) (media db).

Definition get_media_by_section_and_user (db : Session) (section_id user_id : Z)
  : list Media.t :=
  filter (fun m => col_eqb (Media.section_id m) section_id
                   && (Media.uploaded_by m =? user_id)%Z) (media db).

Definition get_media_by_domain (db : Session) (domain_id : Z) : list Media.t :=
  filter (fun m => (Media.domain_id m =? domain_id)%Z) (media db).

Definition get_all_media_by_domain (db : Session) (domain_id : Z)
  : list (Z * option string * string * string * Z * option Z * string) :=
  map (fun m => (Media.id m, Media.title m, Media.file_url m, Media.type m,
                 Media.domain_id m, Media.section_id m, Media.text m))
      (filter (fun m => (Media.domain_id m =? domain_id)%Z) (media db)).

(** The lookup both [delete_media] and [update_media] start with:
    [db.query(models.Media).filter(models.Media.id == media_id).first()]. *)
Definition media_first_by_id (media_id : Z) (db : Session) : option Media.t :=
  first (filter (fun m => (Media.id m =? media_id)%Z) (media db)).

Definition delete_media (media_id : Z) : Crud Media.t :=
  media_item <- query (media_first_by_id media_id) ;;
  match media_item with
  | None => raise NotFound
  | Some media_item =>
      (* DELETE FROM media WHERE media.id = <key of media_item> *)
      commit (set_media (filter (fun m =>
        negb (Media.id m =? Media.id media_item)%Z))) ;;;
      ret media_item
  end.

Definition update_media (media_id : Z) (title text : string)
           (section_id : option Z) : Crud Media.t :=
  media_item <- query (media_first_by_id media_id) ;;
  match media_item with
  | None => raise NotFound
  | Some media_item =>
      let assign (m : Media.t) :=
        Media.mk (Media.id m) (Some title) (Media.file_url m) (Media.type m)
                 (Media.domain_id m) section_id (Media.uploaded_by m) text in
      (* UPDATE media SET title, text, section_id WHERE media.id = <key> *)
      commit (set_media (map (fun m =>
        if (Media.id m =? Media.id media_item)%Z then assign m else m))) ;;;
      ret (assign media_item)
  end.

(** *** Sequences of calls *)

Definition perform (call : Call) (db : Session) : Session :=
  match call with
  | Call_create_user user gensalt =>
      store_after (create_user user gensalt) db
  | Call_change_password user old_password new_password gensalt =>
      store_after (change_password user old_password new_password gensalt) db
  | Call_create_domain domain => store_after (create_domain domain) db
  | Call_create_page page => store_after (create_page page) db
  | Call_create_section section page_id =>
      store_after (create_section section page_id) db
  | Call_create_seo s => store_after (create_seo s) db
  | Call_create_media m => store_after (create_media m) db
  | Call_delete_media media_id => store_after (delete_media media_id) db
  | Call_update_media media_id title text section_id =>
      store_after (update_media media_id title text section_id) db
  end.

(** The store after a sequence of calls, failed ones included. *)
Definition run (calls : list Call) (db : Session) : Session :=
  fold_left (fun db call => perform call db) calls db.

(** The exception a computation ends in, if it raises. *)
Definition raised {A} (c : Crud A) (db : Session) : option HTTPException :=
  match fst (c db) with
  | Raise e => Some e
  | Return _ => None
  end.

Definition call_raised (call : Call) (db : Session) : option HTTPException :=
  match call with
  | Call_create_user user gensalt => raised (create_user user gensalt) db
  | Call_change_password user old_password new_password gensalt =>
      raised (change_password user old_password new_password gensalt) db
  | Call_create_domain domain => raised (create_domain domain) db
  | Call_create_page page => raised (create_page page) db
  | Call_create_section section page_id =>
      raised (create_section section page_id) db
  | Call_create_seo s => raised (create_seo s) db
  | Call_create_media m => raised (create_media m) db
  | Call_delete_media media_id => raised (delete_media media_id) db
  | Call_update_media media_id title text section_id =>
      raised (update_media media_id title text section_id) db
  end.

End WithBcrypt.

(** * Vocabulary of the properties *)

(** The row the store hands back for an email address: the first row in
    storage order that carries it. *)
Definition stored_user (db : Session) (email : string) (user : User.t) : Prop :=
  exists before after,
    users db = before ++ user :: after /\
    User.email user = email /\
    (forall u, In u before -> User.email u <> email).

(** The page [page_id] exists and sits in a domain owned by [user_id]. *)
Definition page_belongs_to_user (db : Session) (page_id user_id : Z) : Prop :=
  exists p d,
    In p (pages db) /\ Page.id p = page_id /\
    In d (domains db) /\ Domain.user_id d = user_id /\
    Page.domain_id p = Domain.id d.

(** The sections attached to a page, in storage order. *)
Definition sections_of_page (db : Session) (page_id : Z) : list Section_.t :=
  filter (fun s => col_eqb (Section_.page_id s) page_id) (sections db).

(** The joined rows one page contributes. *)
Definition join_page (ss : list Section_.t) (p : Page.t)
  : list (Page.t * option Section_.t) :=
  match filter (fun s => col_eqb (Section_.page_id s) (Page.id p)) ss with
  | [] => [(p, None)]
  | matching => map (fun s => (p, Some s)) matching
  end.

(** The row of the aggregate query for one page. *)
Definition row_of_page (ss : list Section_.t) (p : Page.t) : PageRow.t :=
  PageRow.mk (Page.id p) (Page.title p) (Page.hierarchy p)
         (Z.of_nat (length (filter (fun s => col_eqb (Section_.page_id s) (Page.id p)) ss))).


(** The page sits in a domain owned by the user. *)
Definition page_owned_by (db : Session) (user_id : Z) (p : Page.t) : bool :=
  existsb (fun d => (Domain.user_id d =? user_id)%Z
                    && (Domain.id d =? Page.domain_id p)%Z)
          (domains db).

(** The number of sections attached to the page. *)
Definition section_count (db : Session) (p : Page.t) : Z :=
  Z.of_nat (length (sections_of_page db (Page.id p))).


(** Every stored section has a non-empty type. *)
Definition sections_typed (db : Session) : Prop :=
  Forall (fun s => truthy_str (Section_.type s) = true) (sections db).

Definition page_ids_unique (db : Session) : Prop :=
  NoDup (map Page.id (pages db)).

Definition emails_unique (db : Session) : Prop :=
  NoDup (map User.email (users db)).

(** The sections a page input brings along ([page.sections], none when the
    field is [None]). *)
Definition given_sections (page : PageCreate.t) : list SectionCreate.t :=
  match PageCreate.sections page with
  | Some l => l
  | None => []
  end.

(** The section input has a non-empty type. *)
Definition typed (section : SectionCreate.t) : Prop :=
  truthy_str (SectionCreate.type section) = true.

(** ** A sample store *)

(** A stand-in for bcrypt, used to run the functions on concrete data: the
    hash is a tag, the salt and the password; checking compares the tail. *)
Definition sample_hashpw (password salt : string) : string :=
  "$2b$" ++ salt ++ password.

Definition sample_checkpw (password hashed : string) : bool :=
  substring (String.length hashed - String.length password)
            (String.length password) hashed =? password.

Definition ann : User.t :=
  User.mk 1 "ann@example.org" (sample_hashpw "secret" "salt-1").

Definition logo : Media.t :=
  Media.mk 1 (Some "Logo") "/files/logo.png" "image" 1 None 1 "company logo".

Definition sample_db : Session :=
  mkSession
    [ann; User.mk 2 "bob@example.org" (sample_hashpw "hunter2" "salt-2")]
    [Domain.mk 1 1; Domain.mk 2 1; Domain.mk 3 2]
    [Page.mk 1 1 "Home" 1; Page.mk 2 2 "About" 0; Page.mk 3 3 "Other" 0]
    [Section_.mk 1 (Some 1) (Some "hero") "Welcome";
     Section_.mk 2 (Some 1) (Some "text") "is";
     Section_.mk 3 (Some 3) (Some "text") "Elsewhere"]
    [SEO.mk 1 1]
    [logo;
     Media.mk 2 (Some "Banner") "/files/banner.png" "image" 1 (Some 1) 1 "banner"].

(** * Properties *)

(** ** Lookups: [first] of a [filter] *)

Lemma first_filter_None {A} (f : A -> bool) (l : list A) :
  first (filter f l) = None <-> (forall x, In x l -> f x = false).
Proof.
  induction l as [|a l IH]; simpl.
  - split; [intros _ x [] | reflexivity].
  - destruct (f a) eqn:Ha; simpl.
    + split; [discriminate|].
      intros H. rewrite (H a (or_introl eq_refl)) in Ha. discriminate.
    + rewrite IH. split.
      * intros H x [<-|Hx]; auto.
      * intros H x Hx. apply H. now right.
Qed.

Lemma first_filter_Some {A} (f : A -> bool) (l : list A) (x : A) :
  first (filter f l) = Some x -> In x l /\ f x = true.
Proof.
  intros H. apply filter_In.
  destruct (filter f l) as [|y r]; simpl in H; [discriminate|].
  injection H as ->. now left.
Qed.

Lemma first_filter_exists {A} (f : A -> bool) (l : list A) :
  (exists x, In x l /\ f x = true) <-> (exists y, first (filter f l) = Some y).
Proof.
  split.
  - intros (x & Hx & Hfx).
    destruct (first (filter f l)) as [y|] eqn:E; [now exists y|].
    rewrite first_filter_None in E. rewrite (E x Hx) in Hfx. discriminate.
  - intros (y & Hy). exists y. now apply first_filter_Some.
Qed.

Lemma filter_all_false {A} (f : A -> bool) (l : list A) :
  (forall x, In x l -> f x = false) -> filter f l = [].
Proof.
  induction l as [|a l IH]; simpl; intros H; [reflexivity|].
  rewrite (H a (or_introl eq_refl)). apply IH. intros x Hx. apply H. now right.
Qed.

Lemma filter_all_true {A} (f : A -> bool) (l : list A) :
  (forall x, In x l -> f x = true) -> filter f l = l.
Proof.
  induction l as [|a l IH]; simpl; intros H; [reflexivity|].
  rewrite (H a (or_introl eq_refl)). f_equal. apply IH. intros x Hx. apply H. now right.
Qed.

Lemma in_spec (v : Z) (values : list Z) : in_ v values = true <-> In v values.
Proof.
  unfold in_. rewrite existsb_exists. split.
  - intros (w & Hw & E). apply Z.eqb_eq in E. now subst.
  - intros H. exists v. split; [assumption | apply Z.eqb_refl].
Qed.

Lemma col_eqb_spec (c : option Z) (v : Z) : col_eqb c v = true <-> c = Some v.
Proof.
  destruct c as [c|]; simpl; [|split; discriminate].
  rewrite Z.eqb_eq. split; [now intros -> | now intros [= ->]].
Qed.

(** ** Generated keys are fresh *)

Lemma fold_max_ge (ids : list Z) (k : Z) :
  In k ids -> k <= fold_right Z.max 0 ids.
Proof.
  induction ids as [|a ids IH]; simpl; [intros []|].
  intros [->|H]; [lia | specialize (IH H); lia].
Qed.

Lemma next_id_fresh (ids : list Z) : ~ In (next_id ids) ids.
Proof.
  intros H. apply fold_max_ge in H. unfold next_id in H. lia.
Qed.

Lemma next_id_pos (ids : list Z) : 0 < next_id ids.
Proof.
  assert (0 <= fold_right Z.max 0 ids) by (induction ids; simpl; lia).
  unfold next_id. lia.
Qed.

Lemma first_filter_split {A} (f : A -> bool) (l : list A) (x : A) :
  first (filter f l) = Some x <->
  exists before after,
    l = before ++ x :: after /\ f x = true /\
    (forall y, In y before -> f y = false).
Proof.
  split.
  - induction l as [|a l IH]; simpl; [discriminate|].
    case_eq (f a); intros Ha; simpl.
    + intros [= ->]. exists [], l. repeat split; auto. intros y [].
    + intros H. destruct (IH H) as (b & r & -> & Hx & Hb).
      exists (a :: b), r. repeat split; auto.
      intros y [<-|Hy]; auto.
  - intros (b & r & -> & Hx & Hb).
    rewrite filter_app, (filter_all_false f b Hb). simpl. now rewrite Hx.
Qed.

(** ** Users *)

Lemma stored_user_iff (db : Session) (email : string) (user : User.t) :
  first (filter (fun u => User.email u =? email) (users db)) = Some user <->
  stored_user db email user.
Proof.
  rewrite first_filter_split. unfold stored_user.
  split; intros (b & r & E & Hu & Hb); exists b, r; repeat split; auto.
  - now apply String.eqb_eq.
  - intros u Hin. apply String.eqb_neq. auto.
  - now apply String.eqb_eq.
  - intros u Hin. apply String.eqb_neq. auto.
Qed.

Lemma no_user_iff (db : Session) (email : string) :
  first (filter (fun u => User.email u =? email) (users db)) = None <->
  (forall u, In u (users db) -> User.email u <> email).
Proof.
  rewrite first_filter_None.
  split; intros H u Hu; apply String.eqb_neq; auto.
Qed.

(** With the unique-email rule in force, the stored user for an email is
    any row that carries it. *)
Lemma stored_user_unique_email (db : Session) (user : User.t) :
  NoDup (map User.email (users db)) ->
  In user (users db) ->
  stored_user db (User.email user) user.
Proof.
  intros Hnd Hin. apply in_split in Hin as (b & r & E).
  exists b, r. repeat split; auto.
  intros u Hu Heq. rewrite E, map_app in Hnd. simpl in Hnd.
  apply NoDup_remove_2 in Hnd. apply Hnd, in_or_app. left.
  rewrite <- Heq. now apply in_map.
Qed.

Section UserProperties.

Variable bcrypt_hashpw : string -> string -> string.
Variable bcrypt_checkpw : string -> string -> bool.

(** What is assumed of the hashing library: a bcrypt hash is never the
    password it was computed from. *)
Hypothesis bcrypt_hashpw_not_plain :
  forall password salt, bcrypt_hashpw password salt <> password.


(** C3. [authenticate_user] returns the stored user of the email when the
    password verifies against that user's stored hash; it returns [None]
    when no user has the email, and [None] again when the password does not
    verify.  Hence a call failing for the first reason and a call failing
    for the second return the same value. *)
Theorem authenticate_user_result :
  forall (db : Session) (email password : string),
    (forall user,
        stored_user db email user ->
        verify_password bcrypt_checkpw password (User.password user) = true ->
        authenticate_user bcrypt_checkpw db email password = Some user)
    /\ ((forall u, In u (users db) -> User.email u <> email) ->
        authenticate_user bcrypt_checkpw db email password = None)
    /\ (forall user,
        stored_user db email user ->
        verify_password bcrypt_checkpw password (User.password user) = false ->
        authenticate_user bcrypt_checkpw db email password = None)
    /\ (forall (db' : Session) (email' password' : string) (user' : User.t),
        (forall u, In u (users db) -> User.email u <> email) ->
        stored_user db' email' user' ->
        verify_password bcrypt_checkpw password' (User.password user') = false ->
        authenticate_user bcrypt_checkpw db email password
          = authenticate_user bcrypt_checkpw db' email' password').
Proof.
  intros db email password.
  assert (Hmatch : forall d e p user,
             stored_user d e user ->
             authenticate_user bcrypt_checkpw d e p
               = if verify_password bcrypt_checkpw p (User.password user)
                 then Some user else None).
  { intros d e p user Hs. apply stored_user_iff in Hs.
    unfold authenticate_user. rewrite Hs.
    now destruct (verify_password bcrypt_checkpw p (User.password user)). }
  assert (Hnone : forall d e p,
             (forall u, In u (users d) -> User.email u <> e) ->
             authenticate_user bcrypt_checkpw d e p = None).
  { intros d e p Hno. apply no_user_iff in Hno.
    unfold authenticate_user. now rewrite Hno. }
  repeat split.
  - intros user Hs Hv. now rewrite (Hmatch _ _ _ _ Hs), Hv.
  - apply Hnone.
  - intros user Hs Hv. now rewrite (Hmatch _ _ _ _ Hs), Hv.
  - intros db' email' password' user' Hno Hs Hv.
    now rewrite (Hnone _ _ _ Hno), (Hmatch _ _ _ _ Hs), Hv.
Qed.

(** C4. When the old password does not verify against the hash the user
    row carries, [change_password] raises [Forbidden] and the store,
    stored password hashes included, is exactly what it was. *)
Theorem change_password_wrong_old_password :
  forall (db : Session) (user : User.t) (old_password new_password : string)
         (gensalt : string),
    verify_password bcrypt_checkpw old_password (User.password user) = false ->
    change_password bcrypt_hashpw bcrypt_checkpw user old_password new_password gensalt db
      = (Raise Forbidden, db)
    /\ map User.password
           (users (snd (change_password bcrypt_hashpw bcrypt_checkpw user old_password new_password
                                        gensalt db)))
       = map User.password (users db).
Proof.
  intros db user old_password new_password gensalt Hv.
  unfold change_password. rewrite Hv. simpl. split; reflexivity.
Qed.

End UserProperties.

(** ** Sections *)

Lemma owned_page_lookup (db : Session) (page_id user_id : Z) :
  page_belongs_to_user db page_id user_id <->
  exists p,
    first (filter (fun p => (Page.id p =? page_id)%Z
                            && in_ (Page.domain_id p)
                                 (map Domain.id
                                    (filter (fun d => (Domain.user_id d =? user_id)%Z)
                                            (domains db))))
                  (pages db)) = Some p.
Proof.
  rewrite <- first_filter_exists. split.
  - intros (p & d & Hp & Hid & Hd & Hu & Hpd). exists p. split; [assumption|].
    apply andb_true_iff. split; [now apply Z.eqb_eq|].
    apply in_spec. rewrite Hpd. apply in_map, filter_In.
    split; [assumption | now apply Z.eqb_eq].
  - intros (p & Hp & Hf). apply andb_true_iff in Hf as [Hid Hin].
    apply Z.eqb_eq in Hid. apply in_spec, in_map_iff in Hin as (d & Hd & Hfd).
    apply filter_In in Hfd as [Hdin Hu]. apply Z.eqb_eq in Hu.
    exists p, d. repeat split; auto.
Qed.

(** C1. [get_sections_by_page_and_user] returns the empty list whenever the
    page does not belong to a domain owned by the user; when it does, the
    result is the list of the sections of that page with the ones titled
    "is" left out, and nothing else is left out. *)
Theorem get_sections_by_page_and_user_scoped :
  forall (db : Session) (page_id user_id : Z),
    (~ page_belongs_to_user db page_id user_id ->
     get_sections_by_page_and_user db page_id user_id = [])
    /\ (page_belongs_to_user db page_id user_id ->
        get_sections_by_page_and_user db page_id user_id
          = filter (fun s => negb (Section_.title s =? "is"))
                   (sections_of_page db page_id)
        /\ forall s,
            In s (get_sections_by_page_and_user db page_id user_id) <->
            In s (sections db) /\ Section_.page_id s = Some page_id
            /\ Section_.title s <> "is").
Proof.
  intros db page_id user_id.
  pose proof (owned_page_lookup db page_id user_id) as Hown.
  unfold get_sections_by_page_and_user.
  destruct (first _) as [p|].
  - assert (Heq : filter (fun s => col_eqb (Section_.page_id s) page_id
                                   && negb (Section_.title s =? "is"))
                         (sections db)
                  = filter (fun s => negb (Section_.title s =? "is"))
                           (sections_of_page db page_id)).
    { unfold sections_of_page. induction (sections db) as [|s l IH]; simpl; auto.
      destruct (col_eqb (Section_.page_id s) page_id); simpl; rewrite IH; auto. }
    split.
    + intros Hno. destruct Hno. apply Hown. now exists p.
    + intros _. split; [exact Heq|].
      intros s. rewrite filter_In, andb_true_iff, col_eqb_spec, negb_true_iff,
        String.eqb_neq. tauto.
  - split; [reflexivity|].
    intros Hb. apply Hown in Hb as (p & Hp). discriminate.
Qed.



(** ** Media *)

Lemma media_first_by_id_None (db : Session) (media_id : Z) :
  media_first_by_id media_id db = None <->
  (forall m, In m (media db) -> Media.id m <> media_id).
Proof.
  unfold media_first_by_id. rewrite first_filter_None.
  split; intros H m Hm; apply Z.eqb_neq; auto.
Qed.

Lemma media_first_by_id_Some (db : Session) (media_id : Z) (m : Media.t) :
  media_first_by_id media_id db = Some m ->
  In m (media db) /\ Media.id m = media_id.
Proof.
  intros H. apply first_filter_Some in H as [Hin Hid].
  split; [assumption | now apply Z.eqb_eq].
Qed.

Lemma media_first_by_id_exists (db : Session) (media_id : Z) :
  (exists m, In m (media db) /\ Media.id m = media_id) ->
  exists m, media_first_by_id media_id db = Some m.
Proof.
  intros (m & Hm & Hid). apply first_filter_exists.
  exists m. split; [assumption | now apply Z.eqb_eq].
Qed.

(** C7. [delete_media] raises [NotFound] exactly when no media row has the
    id (and then leaves the store alone).  When a row has it, the call
    returns a stored row of that id and removes it: afterwards the lookup by
    that id finds nothing, no row of that id is left, every row of another id
    is still there, and the other tables are untouched. *)
Theorem delete_media_not_found_iff_absent :
  forall (db : Session) (media_id : Z),
    (fst (delete_media media_id db) = Raise NotFound <->
     (forall m, In m (media db) -> Media.id m <> media_id))
    /\ ((forall m, In m (media db) -> Media.id m <> media_id) ->
        snd (delete_media media_id db) = db)
    /\ ((exists m, In m (media db) /\ Media.id m = media_id) ->
        exists removed db',
          delete_media media_id db = (Return removed, db')
          /\ media_first_by_id media_id db = Some removed
          /\ In removed (media db) /\ Media.id removed = media_id
          /\ media_first_by_id media_id db' = None
          /\ (forall m, In m (media db') <->
                        In m (media db) /\ Media.id m <> media_id)
          /\ users db' = users db /\ domains db' = domains db
          /\ pages db' = pages db /\ sections db' = sections db
          /\ seo db' = seo db).
Proof.
  intros db media_id. unfold delete_media, bind, query.
  case_eq (media_first_by_id media_id db).
  - intros found Hfound.
    pose proof (media_first_by_id_Some _ _ _ Hfound) as [Hin Hid].
    split; [|split].
    + simpl. split; [discriminate|].
      intros Habs. now destruct (Habs found Hin).
    + intros Habs. now destruct (Habs found Hin).
    + intros _. exists found. eexists. split; [reflexivity|].
      assert (Hleft : forall m,
                 In m (filter (fun m0 => negb (Media.id m0 =? Media.id found)%Z)
                              (media db)) <->
                 In m (media db) /\ Media.id m <> media_id).
      { intros m. rewrite filter_In, negb_true_iff, Z.eqb_neq, Hid. tauto. }
      split; [reflexivity|]. split; [assumption|]. split; [assumption|].
      split; [|split; [exact Hleft | repeat split]].
      apply media_first_by_id_None. simpl. intros m Hm. now apply Hleft in Hm.
  - intros Hnone. pose proof Hnone as Habs. rewrite media_first_by_id_None in Habs.
    split; [|split].
    + simpl. split; auto.
    + reflexivity.
    + intros (m & Hm & Hid). now destruct (Habs m Hm).
Qed.

(** C9. For an id that a media row carries, [update_media] returns that row
    with its title, text and section_id replaced by the arguments and its
    id, file_url, type, domain_id and uploaded_by as they were.  In the
    store, the media table keeps its length and order; each row of another
    id is unchanged, each row of this id has only the three fields
    rewritten; the other five tables are unchanged. *)
Theorem update_media_frame :
  forall (db : Session) (media_id : Z) (title text : string)
         (section_id : option Z) (m : Media.t),
    media_first_by_id media_id db = Some m ->
    exists updated db',
      update_media media_id title text section_id db = (Return updated, db')
      /\ Media.title updated = Some title
      /\ Media.text updated = text
      /\ Media.section_id updated = section_id
      /\ Media.id updated = Media.id m
      /\ Media.file_url updated = Media.file_url m
      /\ Media.type updated = Media.type m
      /\ Media.domain_id updated = Media.domain_id m
      /\ Media.uploaded_by updated = Media.uploaded_by m
      /\ In updated (media db')
      /\ Forall2 (fun old new =>
                    (Media.id old <> media_id -> new = old)
                    /\ (Media.id old = media_id ->
                        new = Media.mk (Media.id old) (Some title)
                                (Media.file_url old) (Media.type old)
                                (Media.domain_id old) section_id
                                (Media.uploaded_by old) text))
                 (media db) (media db')
      /\ users db' = users db /\ domains db' = domains db
      /\ pages db' = pages db /\ sections db' = sections db
      /\ seo db' = seo db.
Proof.
  intros db media_id title text section_id m Hm.
  destruct (media_first_by_id_Some _ _ _ Hm) as [Hin Hid].
  unfold update_media, bind, query. rewrite Hm. simpl.
  do 2 eexists. split; [reflexivity|]. simpl.
  repeat split; auto.
  - apply in_map_iff. exists m. split; [|assumption].
    now rewrite Z.eqb_refl.
  - rewrite Hid. clear Hm Hin Hid.
    induction (media db) as [|r l IH]; simpl; constructor; auto.
    destruct (Z.eqb_spec (Media.id r) media_id) as [E|E]; split; intros H;
      congruence.
Qed.

(** C10. [update_media] raises nothing but [NotFound], and only when no
    media row has the id.  For an id that a row carries it succeeds with the
    empty string as new title and the row it returns and stores has that
    empty title, which [create_media] refuses with [InvalidArgument]. *)
Theorem update_media_accepts_empty_title :
  forall (db : Session) (media_id : Z) (text : string) (section_id : option Z),
    (forall title e,
        fst (update_media media_id title text section_id db) = Raise e ->
        e = NotFound /\ forall m, In m (media db) -> Media.id m <> media_id)
    /\ ((exists m, In m (media db) /\ Media.id m = media_id) ->
        exists updated db',
          update_media media_id "" text section_id db = (Return updated, db')
          /\ Media.id updated = media_id
          /\ Media.title updated = Some ""
          /\ truthy_str (Media.title updated) = false
          /\ In updated (media db'))
    /\ (forall new : MediaCreate.t,
          MediaCreate.title new = Some "" ->
          create_media new db = (Raise InvalidArgument_media, db)).
Proof.
  intros db media_id text section_id. split; [|split].
  - intros title e. unfold update_media, bind, query.
    destruct (media_first_by_id media_id db) eqn:E; simpl; [discriminate|].
    intros [= <-]. split; [reflexivity | now apply media_first_by_id_None].
  - intros Hex. apply media_first_by_id_exists in Hex as (m & Hm).
    destruct (media_first_by_id_Some _ _ _ Hm) as [Hin Hid].
    unfold update_media, bind, query. rewrite Hm. simpl.
    do 2 eexists. split; [reflexivity|]. simpl. repeat split; auto.
    apply in_map_iff. exists m. split; [|assumption]. now rewrite Z.eqb_refl.
  - intros new Hnew. unfold create_media. now rewrite Hnew.
Qed.

(** ** Pages: the aggregate query of [get_pages_by_user_id] *)

Lemma outerjoin_flat_map (ps : list Page.t) (ss : list Section_.t) :
  outerjoin ps ss = flat_map (join_page ss) ps.
Proof. reflexivity. Qed.

Lemma join_page_fst (ss : list Section_.t) (p : Page.t) :
  forall r, In r (join_page ss p) -> fst r = p.
Proof.
  intros r. unfold join_page.
  destruct (filter _ ss) as [|s l].
  - intros [<-|[]]. reflexivity.
  - intros H. apply in_map_iff in H as (s' & <- & _). reflexivity.
Qed.

Lemma join_page_not_nil (ss : list Section_.t) (p : Page.t) :
  join_page ss p <> [].
Proof.
  unfold join_page. destruct (filter _ ss); discriminate.
Qed.

Lemma count_section_id_join_page (ss : list Section_.t) (p : Page.t) :
  count_section_id (join_page ss p)
  = Z.of_nat (length (filter (fun s => col_eqb (Section_.page_id s) (Page.id p)) ss)).
Proof.
  unfold count_section_id, join_page.
  destruct (filter _ ss) as [|s l]; [reflexivity|].
  f_equal. rewrite filter_all_true.
  - now rewrite length_map.
  - intros r Hr. apply in_map_iff in Hr as (s' & <- & _). reflexivity.
Qed.

Lemma filter_join_page (g : Page.t -> bool) (ss : list Section_.t) (p : Page.t) :
  filter (fun r => g (fst r)) (join_page ss p)
  = if g p then join_page ss p else [].
Proof.
  destruct (g p) eqn:E.
  - apply filter_all_true. intros r Hr. now rewrite (join_page_fst _ _ _ Hr).
  - apply filter_all_false. intros r Hr. now rewrite (join_page_fst _ _ _ Hr).
Qed.

(** A condition on page columns commutes with the join. *)
Lemma filter_outerjoin (g : Page.t -> bool) (ps : list Page.t)
      (ss : list Section_.t) :
  filter (fun r => g (fst r)) (outerjoin ps ss) = outerjoin (filter g ps) ss.
Proof.
  rewrite !outerjoin_flat_map.
  induction ps as [|p ps IH]; simpl; [reflexivity|].
  rewrite filter_app, filter_join_page, IH.
  destruct (g p); reflexivity.
Qed.

Lemma filter_negb_twice (k : Z) (l : list Z) :
  filter (fun j => negb (j =? k)%Z) (filter (fun j => negb (j =? k)%Z) l)
  = filter (fun j => negb (j =? k)%Z) l.
Proof.
  apply filter_all_true. intros x Hx. now apply filter_In in Hx.
Qed.

Lemma distinct_constant_prefix (k : Z) (block rest : list Z) :
  block <> [] -> (forall x, In x block -> x = k) ->
  distinct (block ++ rest) = k :: filter (fun j => negb (j =? k)%Z) (distinct rest).
Proof.
  induction block as [|b block IH]; intros Hne Hall; [congruence|].
  assert (b = k) as -> by (apply Hall; now left).
  simpl. f_equal.
  destruct block as [|b' block'].
  - reflexivity.
  - rewrite IH; [|discriminate | intros x Hx; apply Hall; now right].
    simpl. rewrite Z.eqb_refl. simpl. apply filter_negb_twice.
Qed.

Lemma distinct_keys_outerjoin (ps : list Page.t) (ss : list Section_.t) :
  NoDup (map Page.id ps) ->
  distinct (map (fun r => Page.id (fst r)) (outerjoin ps ss)) = map Page.id ps.
Proof.
  rewrite outerjoin_flat_map.
  induction ps as [|p ps IH]; simpl; intros Hnd; [reflexivity|].
  inversion Hnd as [|? ? Hnotin Hnd']; subst.
  rewrite map_app.
  rewrite (distinct_constant_prefix (Page.id p)).
  - rewrite (IH Hnd'). f_equal. apply filter_all_true.
    intros x Hx. apply negb_true_iff, Z.eqb_neq. intros ->. contradiction.
  - pose proof (join_page_not_nil ss p). destruct (join_page ss p); [congruence|discriminate].
  - intros x Hx. apply in_map_iff in Hx as (r & <- & Hr).
    now rewrite (join_page_fst _ _ _ Hr).
Qed.

Lemma filter_by_key_NoDup (ps : list Page.t) (p : Page.t) :
  NoDup (map Page.id ps) -> In p ps ->
  filter (fun q => (Page.id q =? Page.id p)%Z) ps = [p].
Proof.
  induction ps as [|a ps IH]; simpl; intros Hnd Hin; [contradiction|].
  inversion Hnd as [|? ? Hnotin Hnd']; subst.
  destruct Hin as [->|Hin].
  - rewrite Z.eqb_refl. f_equal. apply filter_all_false.
    intros q Hq. apply Z.eqb_neq. intros E. apply Hnotin.
    rewrite <- E. now apply in_map.
  - destruct (Z.eqb_spec (Page.id a) (Page.id p)) as [E|E]; [|now apply IH].
    destruct Hnotin. rewrite E. now apply in_map.
Qed.

(** Under the primary key of pages, the group of a page id is what that
    page contributes to the join. *)
Lemma group_of_page (ps : list Page.t) (ss : list Section_.t) (p : Page.t) :
  NoDup (map Page.id ps) -> In p ps ->
  filter (fun r => (Page.id (fst r) =? Page.id p)%Z) (outerjoin ps ss)
  = join_page ss p.
Proof.
  intros Hnd Hin.
  rewrite (filter_outerjoin (fun q => (Page.id q =? Page.id p)%Z)).
  rewrite (filter_by_key_NoDup _ _ Hnd Hin), outerjoin_flat_map. simpl.
  apply app_nil_r.
Qed.

Lemma group_row_outerjoin (ps : list Page.t) (ss : list Section_.t) (p : Page.t) :
  NoDup (map Page.id ps) -> In p ps ->
  group_row (outerjoin ps ss) (Page.id p) = [row_of_page ss p].
Proof.
  intros Hnd Hin. unfold group_row.
  rewrite (group_of_page _ _ _ Hnd Hin), count_section_id_join_page.
  pose proof (join_page_fst ss p) as Hfst.
  destruct (join_page ss p) as [|[q s] rest] eqn:E.
  - now destruct (join_page_not_nil ss p).
  - simpl. specialize (Hfst (q, s) (or_introl eq_refl)). simpl in Hfst.
    now subst q.
Qed.

Lemma group_by_page_id_outerjoin (ps : list Page.t) (ss : list Section_.t) :
  NoDup (map Page.id ps) ->
  group_by_page_id (outerjoin ps ss) = map (row_of_page ss) ps.
Proof.
  intros Hnd. unfold group_by_page_id.
  rewrite (distinct_keys_outerjoin _ _ Hnd).
  assert (Hsub : forall l, incl l ps ->
            flat_map (group_row (outerjoin ps ss)) (map Page.id l)
            = map (row_of_page ss) l).
  { induction l as [|p l IH]; intros Hincl; [reflexivity|].
    cbn [map flat_map].
    rewrite IH by (intros x Hx; apply Hincl; now right).
    now rewrite (group_row_outerjoin _ _ _ Hnd (Hincl p (or_introl eq_refl))). }
  apply Hsub, incl_refl.
Qed.

Lemma NoDup_map_filter {A B} (f : A -> B) (g : A -> bool) (l : list A) :
  NoDup (map f l) -> NoDup (map f (filter g l)).
Proof.
  induction l as [|a l IH]; simpl; intros Hnd; [constructor|].
  inversion Hnd as [|? ? Hnotin Hnd']; subst.
  destruct (g a); simpl; [|now apply IH].
  constructor; [|now apply IH].
  intros Hin. apply Hnotin. apply in_map_iff in Hin as (x & <- & Hx).
  apply in_map. now apply filter_In in Hx.
Qed.

(** *** Ordering *)

Lemma insert_by_hierarchy_perm (x : PageRow.t) (l : list PageRow.t) :
  Permutation (x :: l) (insert_by_hierarchy x l).
Proof.
  induction l as [|y l IH]; simpl; [reflexivity|].
  destruct (PageRow.hierarchy x <=? PageRow.hierarchy y)%Z; [reflexivity|].
  rewrite perm_swap. now constructor.
Qed.

Lemma order_by_hierarchy_perm (l : list PageRow.t) :
  Permutation l (order_by_hierarchy l).
Proof.
  induction l as [|x l IH]; simpl; [constructor|].
  rewrite <- insert_by_hierarchy_perm. now constructor.
Qed.




(** *** The summaries *)

Lemma page_owned_by_spec (db : Session) (user_id : Z) (p : Page.t) :
  page_owned_by db user_id p = true <->
  exists d, In d (domains db) /\ Domain.user_id d = user_id
            /\ Domain.id d = Page.domain_id p.
Proof.
  unfold page_owned_by. rewrite existsb_exists.
  split; intros (d & Hd & H); exists d; split; auto.
  - apply andb_true_iff in H. now rewrite !Z.eqb_eq in H.
  - apply andb_true_iff. now rewrite !Z.eqb_eq.
Qed.

Lemma in_domain_ids_owned (db : Session) (user_id : Z) (p : Page.t) :
  in_ (Page.domain_id p)
      (map Domain.id (filter (fun d => (Domain.user_id d =? user_id)%Z) (domains db)))
  = page_owned_by db user_id p.
Proof.
  apply eq_true_iff_eq. rewrite in_spec, page_owned_by_spec, in_map_iff.
  split; intros (d & H).
  - destruct H as [Hid Hf]. apply filter_In in Hf as [Hd Hu].
    exists d. now rewrite Z.eqb_eq in Hu.
  - destruct H as (Hd & Hu & Hid). exists d. split; [assumption|].
    apply filter_In. split; [assumption | now apply Z.eqb_eq].
Qed.

Lemma get_pages_by_user_id_unfold (db : Session) (user_id : Z) :
  NoDup (map Page.id (pages db)) ->
  get_pages_by_user_id db user_id
  = map (fun row => PageSummary.mk (str (PageRow.id row)) (PageRow.title row)
                                   (PageRow.hierarchy row) (PageRow.sections row))
        (order_by_hierarchy
           (map (row_of_page (sections db))
                (filter (page_owned_by db user_id) (pages db)))).
Proof.
  intros Hnd. unfold get_pages_by_user_id. do 2 f_equal.
  rewrite (filter_outerjoin
             (fun p => in_ (Page.domain_id p)
                (map Domain.id
                   (filter (fun d => (Domain.user_id d =? user_id)%Z) (domains db))))).
  rewrite group_by_page_id_outerjoin by now apply NoDup_map_filter.
  f_equal. apply filter_ext. intros p. apply in_domain_ids_owned.
Qed.


(** ** Stores built through the data access layer *)

Section Reachable.

Variable bcrypt_hashpw : string -> string -> string.
Variable bcrypt_checkpw : string -> string -> bool.

Lemma for_each_preserves {A} (P : Session -> Prop) (body : A -> Crud unit)
      (xs : list A) :
  (forall x db, P db -> P (store_after (body x) db)) ->
  forall db, P db -> P (store_after (for_each xs body) db).
Proof.
  intros Hbody. unfold store_after in *.
  induction xs as [|x xs IH]; intros db HP; simpl; [assumption|].
  unfold bind. specialize (Hbody x db HP).
  destruct (body x db) as [[[]|e] db']; simpl in *; auto.
Qed.

Lemma create_section_typed (section : SectionCreate.t) (page_id : option Z)
      (db : Session) :
  sections_typed db -> sections_typed (store_after (create_section section page_id) db).
Proof.
  intros Hdb. unfold store_after, create_section.
  destruct (truthy_int page_id); simpl;
    destruct (truthy_str (SectionCreate.type section)) eqn:Ht; simpl; auto;
    apply Forall_app; split; auto.
Qed.

Lemma create_section_pages (section : SectionCreate.t) (page_id : option Z)
      (db : Session) :
  pages (store_after (create_section section page_id) db) = pages db.
Proof.
  unfold store_after, create_section.
  destruct (truthy_int page_id); simpl;
    destruct (truthy_str (SectionCreate.type section)); reflexivity.
Qed.

Lemma create_page_sections_loop (P : Session -> Prop) (page : PageCreate.t)
      (db : Session) :
  (forall section page_id d,
      P d -> P (store_after (create_section section page_id) d)) ->
  P (store_after (add_page page) db) ->
  P (store_after (create_page page) db).
Proof.
  intros Hsec Hadd. unfold store_after, create_page, bind in *. simpl in *.
  set (db1 := set_pages _ db) in *.
  set (db_page := Page.mk _ _ _ _).
  assert (Hloop : forall l,
             P (snd (for_each l (fun section =>
                   create_section section (Some (Page.id db_page)) ;;; ret tt) db1))).
  { intros l. apply (for_each_preserves P); [|exact Hadd].
    intros x d Hd. specialize (Hsec x (Some (Page.id db_page)) d Hd).
    unfold store_after, bind, ret in *.
    destruct (create_section x (Some (Page.id db_page)) d) as [[r|e] d']; auto. }
  destruct (truthy_list (PageCreate.sections page)).
  - specialize (Hloop (match PageCreate.sections page with
                       | Some l => l | None => [] end)).
    destruct (for_each _ _ db1) as [[[]|e] d']; auto.
  - exact Hadd.
Qed.

Lemma perform_sections_typed (call : Call) (db : Session) :
  sections_typed db -> sections_typed (perform bcrypt_hashpw bcrypt_checkpw call db).
Proof.
  intros Hdb. destruct call; simpl.
  - unfold store_after, create_user, bind, query.
    destruct (first _); assumption.
  - unfold store_after, change_password.
    destruct (verify_password _ _ _); assumption.
  - assumption.
  - apply (create_page_sections_loop sections_typed);
      [intros; now apply create_section_typed | assumption].
  - now apply create_section_typed.
  - assumption.
  - unfold store_after, create_media.
    destruct (truthy_str (MediaCreate.title m)); assumption.
  - unfold store_after, delete_media, bind, query.
    destruct (media_first_by_id _ _); assumption.
  - unfold store_after, update_media, bind, query.
    destruct (media_first_by_id _ _); assumption.
Qed.

Lemma run_sections_typed (calls : list Call) (db : Session) :
  sections_typed db -> sections_typed (run bcrypt_hashpw bcrypt_checkpw calls db).
Proof.
  revert db. unfold run.
  induction calls as [|call calls IH]; intros db Hdb; simpl; [assumption|].
  apply IH. now apply perform_sections_typed.
Qed.

(** C6. When the type of the input is empty ([None] or the empty string),
    [create_section] raises [InvalidArgument] and the store is what it was,
    with or without a page id argument.  Hence in a store built from the
    empty one by calls of the data access layer, every section row has a
    non-empty type. *)
Theorem create_section_empty_type_rejected :
  forall (db : Session) (section : SectionCreate.t) (page_id : option Z),
    (truthy_str (SectionCreate.type section) = false ->
     create_section section page_id db = (Raise InvalidArgument_section, db))
    /\ (forall (calls : list Call) (s : Section_.t),
          In s (sections (run bcrypt_hashpw bcrypt_checkpw calls empty_session)) ->
          exists type_, Section_.type s = Some type_ /\ type_ <> "").
Proof.
  intros db section page_id. split.
  - intros Hempty. unfold create_section.
    destruct (truthy_int page_id); simpl; now rewrite Hempty.
  - intros calls s Hs.
    assert (Hinv : sections_typed (run bcrypt_hashpw bcrypt_checkpw calls empty_session))
      by (apply run_sections_typed; constructor).
    unfold sections_typed in Hinv. rewrite Forall_forall in Hinv.
    specialize (Hinv s Hs). unfold truthy_str in Hinv.
    destruct (Section_.type s) as [t|]; [|discriminate].
    exists t. split; [reflexivity|].
    now apply String.eqb_neq, negb_true_iff.
Qed.

End Reachable.

(** ** Keys and emails stay unique in reachable stores *)

Section ReachableKeys.

Variable bcrypt_hashpw : string -> string -> string.
Variable bcrypt_checkpw : string -> string -> bool.

Lemma NoDup_snoc {A} (l : list A) (x : A) :
  NoDup l -> ~ In x l -> NoDup (l ++ [x]).
Proof.
  intros Hnd Hx. apply NoDup_rev in Hnd. rewrite <- (rev_involutive (l ++ [x])).
  apply NoDup_rev. rewrite rev_app_distr. simpl.
  constructor; [|assumption]. now rewrite <- in_rev.
Qed.

Lemma perform_page_ids_unique (call : Call) (db : Session) :
  page_ids_unique db ->
  page_ids_unique (perform bcrypt_hashpw bcrypt_checkpw call db).
Proof.
  intros Hdb. destruct call; simpl.
  - unfold store_after, create_user, bind, query.
    destruct (first _); assumption.
  - unfold store_after, change_password.
    destruct (verify_password _ _ _); assumption.
  - assumption.
  - apply (create_page_sections_loop page_ids_unique).
    + intros section page_id d Hd. unfold page_ids_unique.
      now rewrite create_section_pages.
    + unfold page_ids_unique, store_after. simpl. rewrite map_app. simpl.
      apply NoDup_snoc; [assumption | apply next_id_fresh].
  - unfold page_ids_unique. now rewrite create_section_pages.
  - assumption.
  - unfold store_after, create_media.
    destruct (truthy_str (MediaCreate.title m)); assumption.
  - unfold store_after, delete_media, bind, query.
    destruct (media_first_by_id _ _); assumption.
  - unfold store_after, update_media, bind, query.
    destruct (media_first_by_id _ _); assumption.
Qed.

Lemma perform_emails_unique (call : Call) (db : Session) :
  emails_unique db ->
  emails_unique (perform bcrypt_hashpw bcrypt_checkpw call db).
Proof.
  intros Hdb. destruct call; simpl.
  - unfold store_after, create_user, bind, query.
    destruct (first _) eqn:E; [assumption|].
    unfold emails_unique. simpl. rewrite map_app. simpl.
    apply NoDup_snoc; [assumption|].
    rewrite no_user_iff in E. intros Hin.
    apply in_map_iff in Hin as (u & He & Hu). now apply (E u Hu).
  - unfold store_after, change_password.
    destruct (verify_password _ _ _); [|assumption].
    unfold emails_unique in *. simpl. rewrite map_map.
    erewrite map_ext; [exact Hdb|].
    intros u. simpl. now destruct (User.id u =? User.id user)%Z.
  - assumption.
  - apply (create_page_sections_loop emails_unique); [|assumption].
    intros section page_id d Hd. unfold store_after, create_section.
    destruct (truthy_int page_id); simpl;
      destruct (truthy_str (SectionCreate.type section)); assumption.
  - unfold store_after, create_section.
    destruct (truthy_int page_id); simpl;
      destruct (truthy_str (SectionCreate.type section)); assumption.
  - assumption.
  - unfold store_after, create_media.
    destruct (truthy_str (MediaCreate.title m)); assumption.
  - unfold store_after, delete_media, bind, query.
    destruct (media_first_by_id _ _); assumption.
  - unfold store_after, update_media, bind, query.
    destruct (media_first_by_id _ _); assumption.
Qed.

(** Page ids and user emails are unique in every store built from the empty
    one by calls of the data access layer. *)
Lemma run_unique (calls : list Call) :
  page_ids_unique (run bcrypt_hashpw bcrypt_checkpw calls empty_session)
  /\ emails_unique (run bcrypt_hashpw bcrypt_checkpw calls empty_session).
Proof.
  assert (H : forall db, page_ids_unique db /\ emails_unique db ->
                         page_ids_unique (run bcrypt_hashpw bcrypt_checkpw calls db)
                         /\ emails_unique (run bcrypt_hashpw bcrypt_checkpw calls db)).
  { unfold run. induction calls as [|call calls IH]; intros db [Hp He]; simpl; auto.
    apply IH. split; [now apply perform_page_ids_unique
                     | now apply perform_emails_unique]. }
  apply H. split; constructor.
Qed.

End ReachableKeys.

(** ** A sample store and sample runs *)

Lemma length_append (s1 s2 : string) :
  String.length (s1 ++ s2) = (String.length s1 + String.length s2)%nat.
Proof.
  induction s1 as [|c s1 IH]; simpl; [reflexivity | now rewrite IH].
Qed.


(** The scenario of the specification: user 1 owns domains 1 and 2; page 1
    (hierarchy 1) has two sections, page 2 (hierarchy 0) has none. *)
Example get_pages_by_user_id_sample :
  get_pages_by_user_id sample_db 1
  = [PageSummary.mk "2" "About" 0 0; PageSummary.mk "1" "Home" 1 2].
Proof. reflexivity. Qed.

Example get_sections_by_page_and_user_sample :
  get_sections_by_page_and_user sample_db 1 1
    = [Section_.mk 1 (Some 1) (Some "hero") "Welcome"]
  /\ get_sections_by_page_and_user sample_db 1 2 = []
  /\ get_sections_by_page_and_user sample_db 9 1 = [].
Proof. repeat split. Qed.

Example authenticate_user_sample :
  authenticate_user sample_checkpw sample_db "ann@example.org" "secret" = Some ann
  /\ authenticate_user sample_checkpw sample_db "ann@example.org" "guess" = None
  /\ authenticate_user sample_checkpw sample_db "eve@example.org" "secret" = None.
Proof. repeat split. Qed.

Example create_page_stops_at_untyped_section :
  let page :=
    PageCreate.mk 1 "Contact" 2
      (Some [SectionCreate.mk None (Some "form") "Write us";
             SectionCreate.mk None (Some "") "Untyped";
             SectionCreate.mk None (Some "map") "Find us"]) in
  fst (create_page page empty_session) = Raise InvalidArgument_section
  /\ pages (store_after (create_page page) empty_session)
     = [Page.mk 1 1 "Contact" 2]
  /\ sections (store_after (create_page page) empty_session)
     = [Section_.mk 1 (Some 1) (Some "form") "Write us"].
Proof. repeat split. Qed.

(** *** The theorems at the sample store *)

Lemma get_sections_by_page_and_user_scoped_witness :
  page_belongs_to_user sample_db 1 1
  /\ get_sections_by_page_and_user sample_db 1 1
     = filter (fun s => negb (Section_.title s =? "is"))
              (sections_of_page sample_db 1).
Proof.
  assert (H : page_belongs_to_user sample_db 1 1).
  { exists (Page.mk 1 1 "Home" 1), (Domain.mk 1 1). simpl. intuition. }
  split; [exact H|].
  exact (proj1 (proj2 (get_sections_by_page_and_user_scoped sample_db 1 1) H)).
Defined.


Lemma authenticate_user_result_witness :
  stored_user sample_db "ann@example.org" ann
  /\ verify_password sample_checkpw "secret" (User.password ann) = true
  /\ authenticate_user sample_checkpw sample_db "ann@example.org" "secret"
     = Some ann.
Proof.
  assert (H : stored_user sample_db "ann@example.org" ann).
  { exists [], [User.mk 2 "bob@example.org" (sample_hashpw "hunter2" "salt-2")].
    repeat split. intros u []. }
  split; [exact H|]. split; [reflexivity|].
  exact (proj1 (authenticate_user_result sample_checkpw sample_db
                  "ann@example.org" "secret") ann H eq_refl).
Defined.

Lemma change_password_wrong_old_password_witness :
  verify_password sample_checkpw "guess" (User.password ann) = false
  /\ change_password sample_hashpw sample_checkpw ann "guess" "fresh" "salt-4"
                     sample_db
     = (Raise Forbidden, sample_db).
Proof.
  split; [reflexivity|].
  exact (proj1 (change_password_wrong_old_password sample_hashpw sample_checkpw
                  sample_db ann "guess" "fresh" "salt-4" eq_refl)).
Defined.


Lemma create_section_empty_type_rejected_witness :
  let section := SectionCreate.mk (Some 1) (Some "") "Untyped" in
  truthy_str (SectionCreate.type section) = false
  /\ create_section section (Some 2) sample_db
     = (Raise InvalidArgument_section, sample_db).
Proof.
  intros section. split; [reflexivity|].
  exact (proj1 (create_section_empty_type_rejected sample_hashpw sample_checkpw
                  sample_db section (Some 2)) eq_refl).
Defined.

Lemma delete_media_not_found_iff_absent_witness :
  (exists m, In m (media sample_db) /\ Media.id m = 1)
  /\ exists removed db',
      delete_media 1 sample_db = (Return removed, db')
      /\ media_first_by_id 1 sample_db = Some removed
      /\ In removed (media sample_db) /\ Media.id removed = 1
      /\ media_first_by_id 1 db' = None
      /\ (forall m, In m (media db') <->
                    In m (media sample_db) /\ Media.id m <> 1)
      /\ users db' = users sample_db /\ domains db' = domains sample_db
      /\ pages db' = pages sample_db /\ sections db' = sections sample_db
      /\ seo db' = seo sample_db.
Proof.
  assert (H : exists m, In m (media sample_db) /\ Media.id m = 1).
  { exists logo. split; [now left | reflexivity]. }
  split; [exact H|].
  exact (proj2 (proj2 (delete_media_not_found_iff_absent sample_db 1)) H).
Defined.


Lemma update_media_frame_witness :
  media_first_by_id 1 sample_db = Some logo
  /\ exists updated db',
      update_media 1 "Logo (dark)" "dark logo" (Some 1) sample_db
        = (Return updated, db')
      /\ Media.title updated = Some "Logo (dark)"
      /\ Media.file_url updated = Media.file_url logo
      /\ seo db' = seo sample_db.
Proof.
  split; [reflexivity|].
  destruct (update_media_frame sample_db 1 "Logo (dark)" "dark logo" (Some 1)
                               logo eq_refl)
    as (updated & db' & Hrun & Ht & _ & _ & _ & Hurl & _ & _ & _ & _ & _
        & _ & _ & _ & _ & Hseo).
  exists updated, db'. auto.
Defined.

Lemma update_media_accepts_empty_title_witness :
  (exists m, In m (media sample_db) /\ Media.id m = 2)
  /\ exists updated db',
      update_media 2 "" "banner" None sample_db = (Return updated, db')
      /\ Media.id updated = 2
      /\ Media.title updated = Some ""
      /\ truthy_str (Media.title updated) = false
      /\ In updated (media db').
Proof.
  assert (H : exists m, In m (media sample_db) /\ Media.id m = 2).
  { eexists. split; [right; left; reflexivity | reflexivity]. }
  split; [exact H|].
  exact (proj1 (proj2 (update_media_accepts_empty_title sample_db 2 "banner" None)) H).
Defined.

(** * Further properties of the data access layer *)

(** ** Users: creating, authenticating, changing the password *)

Lemma substring_all (s : string) : substring 0 (String.length s) s = s.
Proof.
  induction s as [|c s IH]; simpl; [reflexivity | now rewrite IH].
Qed.

Lemma substring_skip (a s : string) (m : nat) :
  substring (String.length a) m (a ++ s)%string = substring 0 m s.
Proof.
  induction a as [|c a IH]; simpl; [reflexivity | exact IH].
Qed.

Lemma sample_checkpw_hashpw (password salt : string) :
  sample_checkpw password (sample_hashpw password salt) = true.
Proof.
  unfold sample_checkpw, sample_hashpw.
  rewrite String.eqb_eq.
  replace ("$2b$" ++ salt ++ password)%string
    with (("$2b$" ++ salt) ++ password)%string by (simpl; reflexivity).
  rewrite length_append.
  replace (String.length ("$2b$" ++ salt)%string + String.length password
           - String.length password)%nat
    with (String.length ("$2b$" ++ salt)%string) by lia.
  rewrite substring_skip. apply substring_all.
Qed.

Lemma filter_email_map_password (email : string) (f : User.t -> User.t)
      (l : list User.t) :
  (forall u, User.email (f u) = User.email u) ->
  filter (fun u => User.email u =? email) (map f l)
  = map f (filter (fun u => User.email u =? email) l).
Proof.
  intros Hf. induction l as [|u l IH]; simpl; [reflexivity|].
  rewrite Hf. destruct (User.email u =? email); simpl; now rewrite IH.
Qed.

Section UserRoundTrips.

Variable bcrypt_hashpw : string -> string -> string.
Variable bcrypt_checkpw : string -> string -> bool.

(** What is assumed of the hashing library here: a password checks against
    its own hash, whatever the salt. *)
Hypothesis bcrypt_checkpw_hashpw :
  forall password salt,
    bcrypt_checkpw password (bcrypt_hashpw password salt) = true.

(** X1. [authenticate_user] never hands out a user it did not verify: a
    returned user is the stored user of the email, and the password checked
    against that user's stored hash. *)
Theorem authenticate_user_sound :
  forall (db : Session) (email password : string) (user : User.t),
    authenticate_user bcrypt_checkpw db email password = Some user ->
    stored_user db email user
    /\ In user (users db)
    /\ User.email user = email
    /\ verify_password bcrypt_checkpw password (User.password user) = true.
Proof.
  intros db email password user. unfold authenticate_user.
  destruct (first _) as [found|] eqn:E; [|discriminate].
  destruct (verify_password bcrypt_checkpw password (User.password found)) eqn:V;
    simpl; [|discriminate].
  intros [= <-]. pose proof (first_filter_Some _ _ _ E) as [Hin He].
  repeat split; auto.
  - now apply stored_user_iff.
  - now apply String.eqb_eq.
Qed.

(** X2. A user created with an unused email can log in at once: after
    [create_user] succeeds, [authenticate_user] with the same email and the
    plaintext password returns the created row, and a password that does not
    check against the new hash is refused. *)
Theorem create_user_then_authenticate :
  forall (db : Session) (user : UserCreate.t) (gensalt : string),
    (forall u, In u (users db) -> User.email u <> UserCreate.email user) ->
    exists row db',
      create_user bcrypt_hashpw user gensalt db = (Return row, db')
      /\ authenticate_user bcrypt_checkpw db' (UserCreate.email user)
                           (UserCreate.password user) = Some row
      /\ (forall other,
            bcrypt_checkpw other (User.password row) = false ->
            authenticate_user bcrypt_checkpw db' (UserCreate.email user) other
              = None).
Proof.
  intros db user gensalt Hnew.
  pose proof Hnew as Hnone. apply no_user_iff in Hnone.
  unfold create_user, bind, query. rewrite Hnone.
  do 2 eexists. split; [reflexivity|].
  assert (Hfirst : forall l : list User.t,
             (forall u, In u l -> User.email u <> UserCreate.email user) ->
             forall row, User.email row = UserCreate.email user ->
             first (filter (fun u => User.email u =? UserCreate.email user)
                           (l ++ [row])) = Some row).
  { intros l Hl row Hrow. rewrite filter_app, filter_all_false.
    - simpl. apply String.eqb_eq in Hrow. now rewrite Hrow.
    - intros u Hu. apply String.eqb_neq. auto. }
  unfold authenticate_user. simpl.
  rewrite (Hfirst _ Hnew) by reflexivity. simpl.
  unfold verify_password, hash_password. rewrite bcrypt_checkpw_hashpw. simpl.
  split; [reflexivity|]. intros other Hother. now rewrite Hother.
Qed.

(** X3. Once [create_user] has been called with an email, that email is
    taken: any later [create_user] with it raises [Conflict] and writes
    nothing, whether the first call succeeded or not. *)
Theorem create_user_twice_conflict :
  forall (db : Session) (user again : UserCreate.t) (gensalt gensalt' : string),
    UserCreate.email again = UserCreate.email user ->
    create_user bcrypt_hashpw again gensalt'
                (store_after (create_user bcrypt_hashpw user gensalt) db)
    = (Raise Conflict, store_after (create_user bcrypt_hashpw user gensalt) db).
Proof.
  intros db user again gensalt gensalt' Hsame.
  assert (Htaken : exists u,
             In u (users (store_after (create_user bcrypt_hashpw user gensalt) db))
             /\ (User.email u =? UserCreate.email again) = true).
  { rewrite Hsame. unfold store_after, create_user, bind, query.
    destruct (first _) as [found|] eqn:E.
    - simpl. exists found. now apply first_filter_Some in E.
    - simpl. eexists. split; [apply in_or_app; right; left; reflexivity|].
      simpl. apply String.eqb_refl. }
  apply first_filter_exists in Htaken as (found & Hfound).
  unfold create_user at 1. unfold bind, query. now rewrite Hfound.
Qed.

(** X4. [get_user] finds a created user under its generated id, and the
    lookup of every other id is what it was before the creation. *)
Theorem create_user_then_get_user :
  forall (db : Session) (user : UserCreate.t) (gensalt : string),
    (forall u, In u (users db) -> User.email u <> UserCreate.email user) ->
    exists row db',
      create_user bcrypt_hashpw user gensalt db = (Return row, db')
      /\ get_user db' (User.id row) = Some row
      /\ get_user db (User.id row) = None
      /\ (forall user_id, user_id <> User.id row ->
                          get_user db' user_id = get_user db user_id).
Proof.
  intros db user gensalt Hnew. apply no_user_iff in Hnew.
  unfold create_user, bind, query. rewrite Hnew.
  do 2 eexists. split; [reflexivity|]. simpl.
  pose proof (next_id_fresh (map User.id (users db))) as Hfresh.
  set (k := next_id (map User.id (users db))) in *.
  assert (Hold : filter (fun u => (User.id u =? k)%Z) (users db) = []).
  { apply filter_all_false. intros u Hu. apply Z.eqb_neq. intros E.
    apply Hfresh. rewrite <- E. now apply in_map. }
  unfold get_user. simpl. rewrite !filter_app, Hold. simpl.
  rewrite Z.eqb_refl. repeat split.
  intros user_id Hneq. rewrite filter_app. simpl.
  destruct (Z.eqb_spec k user_id) as [E|_]; [congruence|].
  now rewrite app_nil_r.
Qed.

(** X5. With the right old password, [change_password] rewrites the hash of
    the stored user and nothing else of the users table (ids and emails
    stay), and the change takes effect: the new password authenticates, and
    the old one is refused as soon as it does not check against the new
    hash. *)
Theorem change_password_then_authenticate :
  forall (db : Session) (user : User.t) (old_password new_password : string)
         (gensalt : string),
    stored_user db (User.email user) user ->
    verify_password bcrypt_checkpw old_password (User.password user) = true ->
    exists user' db',
      change_password bcrypt_hashpw bcrypt_checkpw user old_password
                      new_password gensalt db = (Return user', db')
      /\ User.id user' = User.id user
      /\ User.email user' = User.email user
      /\ User.password user' = hash_password bcrypt_hashpw new_password gensalt
      /\ map User.id (users db') = map User.id (users db)
      /\ map User.email (users db') = map User.email (users db)
      /\ (forall u, In u (users db) -> User.id u <> User.id user ->
                    In u (users db'))
      /\ authenticate_user bcrypt_checkpw db' (User.email user) new_password
         = Some user'
      /\ (bcrypt_checkpw old_password
                         (hash_password bcrypt_hashpw new_password gensalt)
          = false ->
          authenticate_user bcrypt_checkpw db' (User.email user) old_password
          = None).
Proof.
  intros db user old_password new_password gensalt Hstored Hold.
  unfold change_password. rewrite Hold. simpl.
  unfold bind, commit, ret. simpl.
  do 2 eexists. split; [reflexivity|]. simpl.
  set (hashed := hash_password bcrypt_hashpw new_password gensalt).
  set (f := fun u : User.t =>
              if (User.id u =? User.id user)%Z
              then User.mk (User.id u) (User.email u) hashed else u).
  assert (Hid : forall u, User.id (f u) = User.id u)
    by (intros u; unfold f; now destruct (User.id u =? User.id user)%Z).
  assert (Hem : forall u, User.email (f u) = User.email u)
    by (intros u; unfold f; now destruct (User.id u =? User.id user)%Z).
  assert (Hauth : forall d, users d = map f (users db) ->
                  first (filter (fun u => User.email u =? User.email user)
                                (users d))
                  = Some (User.mk (User.id user) (User.email user) hashed)).
  { intros d ->. rewrite (filter_email_map_password _ f _ Hem).
    apply stored_user_iff in Hstored.
    destruct (filter _ (users db)) as [|x r]; simpl in *; [discriminate|].
    injection Hstored as ->. unfold f. now rewrite Z.eqb_refl. }
  repeat split.
  - rewrite map_map. apply map_ext. exact Hid.
  - rewrite map_map. apply map_ext. exact Hem.
  - intros u Hu Hneq. apply in_map_iff. exists u. split; [|assumption].
    unfold f. apply Z.eqb_neq in Hneq. now rewrite Hneq.
  - unfold authenticate_user. rewrite (Hauth (set_users (map f) db) eq_refl). simpl.
    unfold verify_password, hashed, hash_password.
    now rewrite bcrypt_checkpw_hashpw.
  - intros Hrefused. unfold authenticate_user. rewrite (Hauth (set_users (map f) db) eq_refl). simpl.
    unfold verify_password. fold hashed in Hrefused. now rewrite Hrefused.
Qed.

End UserRoundTrips.

(** ** Domains and SEO records: creation and the [first]-row lookups *)

Lemma first_filter_snoc {A} (f : A -> bool) (l : list A) (x : A) :
  first (filter f (l ++ [x]))
  = match first (filter f l) with
    | Some y => Some y
    | None => if f x then Some x else None
    end.
Proof.
  rewrite filter_app. destruct (filter f l) as [|y r]; simpl.
  - now destruct (f x).
  - reflexivity.
Qed.

Lemma first_filter_fresh_key {A} (key : A -> Z) (l : list A) (k : Z) :
  ~ In k (map key l) ->
  first (filter (fun a => (key a =? k)%Z) l) = None.
Proof.
  intros Hfresh. apply first_filter_None. intros a Ha.
  apply Z.eqb_neq. intros E. apply Hfresh. rewrite <- E. now apply in_map.
Qed.

(** X6. [get_domains_by_user_id] returns one domain, not all of them: it is
    [None] exactly when the user owns no domain, and otherwise the owned
    domain that comes first in storage order; a later domain of the same
    user is never returned. *)
Theorem get_domains_by_user_id_first_owned :
  forall (db : Session) (user_id : Z),
    (get_domains_by_user_id db user_id = None <->
     (forall d, In d (domains db) -> Domain.user_id d <> user_id))
    /\ (forall d,
          get_domains_by_user_id db user_id = Some d <->
          exists before after,
            domains db = before ++ d :: after
            /\ Domain.user_id d = user_id
            /\ (forall x, In x before -> Domain.user_id x <> user_id)).
Proof.
  intros db user_id. unfold get_domains_by_user_id. split.
  - rewrite first_filter_None.
    split; intros H d Hd; apply Z.eqb_neq; auto.
  - intros d. rewrite first_filter_split.
    split; intros (b & r & E & Hd & Hb); exists b, r; repeat split; auto.
    + now apply Z.eqb_eq.
    + intros x Hx. apply Z.eqb_neq. auto.
    + now apply Z.eqb_eq.
    + intros x Hx. apply Z.eqb_neq. auto.
Qed.

(** X7. [create_domain] always succeeds; the new domain is found by
    [get_domain] under its generated id, the lookup of any other id is as
    before, and [get_domains_by_user_id] of the owner keeps answering with
    the domain it answered with before, the new one only when there was
    none. *)
Theorem create_domain_then_lookup :
  forall (db : Session) (domain : DomainCreate.t),
    exists row db',
      create_domain domain db = (Return row, db')
      /\ Domain.user_id row = DomainCreate.user_id domain
      /\ get_domain db' (Domain.id row) = Some row
      /\ (forall domain_id, domain_id <> Domain.id row ->
                            get_domain db' domain_id = get_domain db domain_id)
      /\ get_domains_by_user_id db' (DomainCreate.user_id domain)
         = match get_domains_by_user_id db (DomainCreate.user_id domain) with
           | Some d => Some d
           | None => Some row
           end.
Proof.
  intros db domain. unfold create_domain, add_domain.
  do 2 eexists. split; [reflexivity|]. simpl.
  unfold get_domain, get_domains_by_user_id. simpl.
  rewrite !first_filter_snoc. simpl.
  rewrite (first_filter_fresh_key Domain.id) by apply next_id_fresh.
  rewrite !Z.eqb_refl. repeat split.
  intros domain_id Hneq. rewrite first_filter_snoc. simpl.
  destruct (first (filter _ (domains db))); [reflexivity|].
  destruct (Z.eqb_spec (next_id (map Domain.id (domains db))) domain_id);
    congruence.
Qed.

(** X8. [create_seo] always succeeds and never replaces: nothing checks that
    the domain has no SEO record yet, and [get_seo_by_domain] goes on
    returning the record that was there first; the new record is returned
    only for a domain that had none. *)
Theorem create_seo_keeps_first :
  forall (db : Session) (s : SEOCreate.t),
    exists row db',
      create_seo s db = (Return row, db')
      /\ SEO.domain_id row = SEOCreate.domain_id s
      /\ seo db' = seo db ++ [row]
      /\ (forall domain_id old,
            get_seo_by_domain db domain_id = Some old ->
            get_seo_by_domain db' domain_id = Some old)
      /\ (get_seo_by_domain db (SEOCreate.domain_id s) = None ->
          get_seo_by_domain db' (SEOCreate.domain_id s) = Some row)
      /\ (forall domain_id,
            domain_id <> SEOCreate.domain_id s ->
            get_seo_by_domain db' domain_id = get_seo_by_domain db domain_id).
Proof.
  intros db s. unfold create_seo, add_seo.
  do 2 eexists. split; [reflexivity|]. simpl.
  unfold get_seo_by_domain. simpl. repeat split.
  - intros domain_id old Hold. now rewrite first_filter_snoc, Hold.
  - intros Hnone. rewrite first_filter_snoc, Hnone. simpl.
    now rewrite Z.eqb_refl.
  - intros domain_id Hneq. rewrite first_filter_snoc. simpl.
    destruct (first (filter _ (seo db))); [reflexivity|].
    destruct (Z.eqb_spec (SEOCreate.domain_id s) domain_id); congruence.
Qed.

(** ** Pages with their sections *)

Lemma set_sections_nil (db : Session) :
  set_sections (fun t => t ++ []) db = db.
Proof.
  destruct db. unfold set_sections. simpl. now rewrite app_nil_r.
Qed.

Lemma set_sections_app (a b : list Section_.t) (db : Session) :
  set_sections (fun t => t ++ b) (set_sections (fun t => t ++ a) db)
  = set_sections (fun t => t ++ (a ++ b)) db.
Proof.
  unfold set_sections. simpl. now rewrite app_assoc.
Qed.

(** The loop of [create_page] over a run of typed sections: each is stored
    under the page, and the loop goes on with the rest. *)
Lemma create_page_loop_typed (page_id : Z) (pre rest : list SectionCreate.t) :
  page_id <> 0 -> Forall typed pre ->
  forall db, exists new,
    for_each (pre ++ rest)
             (fun section => create_section section (Some page_id) ;;; ret tt) db
    = for_each rest
               (fun section => create_section section (Some page_id) ;;; ret tt)
               (set_sections (fun t => t ++ new) db)
    /\ map Section_.page_id new = map (fun _ => Some page_id) pre
    /\ map Section_.type new = map SectionCreate.type pre
    /\ map Section_.title new = map SectionCreate.title pre.
Proof.
  intros Hnz Hpre. induction Hpre as [|s pre Hs Hpre IH]; intros db.
  - exists []. rewrite set_sections_nil. repeat split.
  - set (row := Section_.mk (next_id (map Section_.id (sections db)))
                            (Some page_id) (SectionCreate.type s)
                            (SectionCreate.title s)).
    destruct (IH (set_sections (fun t => t ++ [row]) db))
      as (new & Hrun & Hp & Ht & Hti).
    exists (row :: new). split; [|simpl; now rewrite Hp, Ht, Hti].
    rewrite set_sections_app in Hrun. simpl in Hrun. rewrite <- Hrun.
    simpl. unfold bind at 1. unfold bind at 1.
    unfold create_section, truthy_int.
    apply Z.eqb_neq in Hnz. rewrite Hnz. simpl.
    unfold typed in Hs. rewrite Hs. simpl. reflexivity.
Qed.

Lemma create_page_loop_untyped (page_id : Z) (bad : SectionCreate.t)
      (post : list SectionCreate.t) (db : Session) :
  truthy_str (SectionCreate.type bad) = false ->
  for_each (bad :: post)
           (fun section => create_section section (Some page_id) ;;; ret tt) db
  = (Raise InvalidArgument_section, db).
Proof.
  intros Hbad. simpl. unfold bind, create_section.
  destruct (truthy_int (Some page_id)); simpl; now rewrite Hbad.
Qed.

Lemma create_page_unfold (page : PageCreate.t) (db : Session) :
  create_page page db
  = let row := Page.mk (next_id (map Page.id (pages db)))
                       (PageCreate.domain_id page) (PageCreate.title page)
                       (PageCreate.hierarchy page) in
    match for_each (given_sections page)
                   (fun section =>
                      create_section section (Some (Page.id row)) ;;; ret tt)
                   (set_pages (fun t => t ++ [row]) db) with
    | (Return _, db') => (Return row, db')
    | (Raise e, db') => (Raise e, db')
    end.
Proof.
  unfold create_page, given_sections, bind at 1, add_page. simpl.
  unfold bind at 1.
  destruct (PageCreate.sections page) as [[|s l]|]; reflexivity.
Qed.

(** X9. When every section of the input has a non-empty type (and also when
    there are none), [create_page] stores the page under a fresh id and
    stores one section per input section, in order, each attached to the new
    page, whatever page the section input named, with the type and title
    of its input; users, domains, SEO records and media are untouched. *)
Theorem create_page_attaches_sections :
  forall (db : Session) (page : PageCreate.t),
    Forall typed (given_sections page) ->
    exists row new db',
      create_page page db = (Return row, db')
      /\ ~ In (Page.id row) (map Page.id (pages db))
      /\ Page.domain_id row = PageCreate.domain_id page
      /\ Page.title row = PageCreate.title page
      /\ Page.hierarchy row = PageCreate.hierarchy page
      /\ pages db' = pages db ++ [row]
      /\ sections db' = sections db ++ new
      /\ map Section_.page_id new
         = map (fun _ => Some (Page.id row)) (given_sections page)
      /\ map Section_.type new = map SectionCreate.type (given_sections page)
      /\ map Section_.title new = map SectionCreate.title (given_sections page)
      /\ users db' = users db /\ domains db' = domains db
      /\ seo db' = seo db /\ media db' = media db.
Proof.
  intros db page Htyped. rewrite create_page_unfold. cbv zeta.
  set (row := Page.mk _ _ _ _).
  assert (Hnz : Page.id row <> 0).
  { pose proof (next_id_pos (map Page.id (pages db))). simpl. lia. }
  destruct (create_page_loop_typed (Page.id row) (given_sections page) []
              Hnz Htyped (set_pages (fun t => t ++ [row]) db))
    as (new & Hrun & Hp & Ht & Hti).
  rewrite app_nil_r in Hrun. rewrite Hrun. simpl.
  exists row, new. eexists. split; [reflexivity|]. simpl.
  repeat split; auto. apply next_id_fresh.
Qed.

(** X10. [create_page] is not all-or-nothing.  When the first section with
    an empty type comes after some typed ones, the call raises
    [InvalidArgument], yet the page stays stored, and so do the sections
    that came before the offending one; the offending one and those after it
    are not stored. *)
Theorem create_page_partial_on_untyped_section :
  forall (db : Session) (page : PageCreate.t)
         (pre post : list SectionCreate.t) (bad : SectionCreate.t),
    given_sections page = pre ++ bad :: post ->
    Forall typed pre ->
    truthy_str (SectionCreate.type bad) = false ->
    exists row new db',
      create_page page db = (Raise InvalidArgument_section, db')
      /\ ~ In (Page.id row) (map Page.id (pages db))
      /\ Page.title row = PageCreate.title page
      /\ pages db' = pages db ++ [row]
      /\ sections db' = sections db ++ new
      /\ map Section_.page_id new = map (fun _ => Some (Page.id row)) pre
      /\ map Section_.type new = map SectionCreate.type pre
      /\ map Section_.title new = map SectionCreate.title pre.
Proof.
  intros db page pre post bad Hsplit Hpre Hbad.
  rewrite create_page_unfold, Hsplit. cbv zeta.
  set (row := Page.mk _ _ _ _).
  assert (Hnz : Page.id row <> 0).
  { pose proof (next_id_pos (map Page.id (pages db))). simpl. lia. }
  destruct (create_page_loop_typed (Page.id row) pre (bad :: post)
              Hnz Hpre (set_pages (fun t => t ++ [row]) db))
    as (new & Hrun & Hp & Ht & Hti).
  rewrite Hrun, (create_page_loop_untyped _ _ _ _ Hbad).
  exists row, new. eexists. split; [reflexivity|]. simpl.
  repeat split; auto. apply next_id_fresh.
Qed.

(** ** Sections seen through the ownership chain *)

(** X11. A section created under a page (typed, page id given and not 0)
    shows up at the end of [get_sections_by_page_and_user] for the users who
    own the page, unless its title is "is", in which case the listing does
    not change; the listings of all other pages are as before, for every
    user. *)
Theorem create_section_then_listed :
  forall (db : Session) (section : SectionCreate.t) (page_id : Z),
    page_id <> 0 ->
    typed section ->
    exists row db',
      create_section section (Some page_id) db = (Return row, db')
      /\ (forall user_id,
            page_belongs_to_user db page_id user_id ->
            get_sections_by_page_and_user db' page_id user_id
            = get_sections_by_page_and_user db page_id user_id
              ++ (if SectionCreate.title section =? "is" then [] else [row]))
      /\ (forall user_id,
            ~ page_belongs_to_user db page_id user_id ->
            get_sections_by_page_and_user db' page_id user_id = [])
      /\ (forall other user_id,
            other <> page_id ->
            get_sections_by_page_and_user db' other user_id
            = get_sections_by_page_and_user db other user_id).
Proof.
  intros db section page_id Hnz Htyped.
  unfold create_section, truthy_int.
  apply Z.eqb_neq in Hnz. rewrite Hnz. simpl.
  unfold typed in Htyped. rewrite Htyped. simpl.
  do 2 eexists. split; [reflexivity|].
  split; [|split].
  - intros user_id Hown. apply owned_page_lookup in Hown as (p & Hp).
    unfold get_sections_by_page_and_user. simpl. rewrite Hp.
    rewrite filter_app. simpl. rewrite Z.eqb_refl. simpl.
    now destruct (SectionCreate.title section =? "is").
  - intros user_id Hnot. unfold get_sections_by_page_and_user. simpl.
    destruct (first _) as [p|] eqn:Hp; [|reflexivity].
    destruct Hnot. apply owned_page_lookup. now exists p.
  - intros other user_id Hneq.
    unfold get_sections_by_page_and_user. simpl.
    destruct (first _); [|reflexivity].
    rewrite filter_app. simpl.
    destruct (Z.eqb_spec page_id other) as [E|_]; [congruence|].
    simpl. apply app_nil_r.
Qed.

(** X12. A user who owns no domain sees nothing: no first domain, no page
    summaries, and no sections of any page. *)
Theorem user_without_domain_sees_nothing :
  forall (db : Session) (user_id : Z),
    (forall d, In d (domains db) -> Domain.user_id d <> user_id) ->
    get_domains_by_user_id db user_id = None
    /\ get_pages_by_user_id db user_id = []
    /\ (forall page_id, get_sections_by_page_and_user db page_id user_id = []).
Proof.
  intros db user_id Hnone.
  assert (Hd : filter (fun d => (Domain.user_id d =? user_id)%Z) (domains db) = []).
  { apply filter_all_false. intros d Hin. apply Z.eqb_neq. auto. }
  split; [|split].
  - unfold get_domains_by_user_id. now rewrite Hd.
  - unfold get_pages_by_user_id. rewrite Hd. simpl.
    rewrite (filter_all_false (fun r => false)); auto.
  - intros page_id. unfold get_sections_by_page_and_user. rewrite Hd. simpl.
    rewrite (filter_all_false _ (pages db)); [reflexivity|].
    intros p _. apply andb_false_r.
Qed.

(** ** Media: creation, lookups, and calls after a deletion *)

(** X13. [create_media] raises [InvalidArgument] exactly when the title is
    missing or empty, and then writes nothing.  Otherwise the media is
    stored under a fresh id with the fields of the input, is found under
    that id, and is listed by [get_media_by_domain] and [get_media_by_user]
    for its domain and uploader. *)
Theorem create_media_requires_title :
  forall (db : Session) (m : MediaCreate.t),
    (truthy_str (MediaCreate.title m) = false ->
     create_media m db = (Raise InvalidArgument_media, db))
    /\ (truthy_str (MediaCreate.title m) = true ->
        exists row db',
          create_media m db = (Return row, db')
          /\ media db' = media db ++ [row]
          /\ ~ In (Media.id row) (map Media.id (media db))
          /\ Media.title row = MediaCreate.title m
          /\ Media.section_id row = MediaCreate.section_id m
          /\ media_first_by_id (Media.id row) db' = Some row
          /\ In row (get_media_by_domain db' (MediaCreate.domain_id m))
          /\ In row (get_media_by_user db' (MediaCreate.uploaded_by m))).
Proof.
  intros db m. unfold create_media. split; intros Ht; rewrite Ht; simpl.
  - reflexivity.
  - do 2 eexists. split; [reflexivity|]. simpl.
    pose proof (next_id_fresh (map Media.id (media db))) as Hfresh.
    repeat split; auto.
    + unfold media_first_by_id. simpl. rewrite first_filter_snoc. simpl.
      rewrite (first_filter_fresh_key Media.id) by assumption.
      now rewrite Z.eqb_refl.
    + unfold get_media_by_domain. simpl. apply filter_In.
      split; [apply in_or_app; right; now left | apply Z.eqb_refl].
    + unfold get_media_by_user. simpl. apply filter_In.
      split; [apply in_or_app; right; now left | apply Z.eqb_refl].
Qed.

(** X14. After [delete_media] has been called with an id, that id is gone
    whatever the outcome of the call: deleting it again and updating it both
    raise [NotFound] and leave the store as it is. *)
Theorem delete_media_then_not_found :
  forall (db : Session) (media_id : Z) (title text : string)
         (section_id : option Z),
    let db' := store_after (delete_media media_id) db in
    delete_media media_id db' = (Raise NotFound, db')
    /\ update_media media_id title text section_id db' = (Raise NotFound, db').
Proof.
  intros db media_id title text section_id db'.
  assert (Hgone : media_first_by_id media_id db' = None).
  { subst db'. unfold store_after, delete_media, bind, query.
    destruct (media_first_by_id media_id db) as [found|] eqn:E; simpl.
    - apply media_first_by_id_None. simpl. intros m Hm.
      apply filter_In in Hm as [_ Hm].
      apply media_first_by_id_Some in E as [_ <-].
      now apply Z.eqb_neq, negb_true_iff.
    - exact E. }
  unfold delete_media, update_media, bind, query. now rewrite Hgone.
Qed.

(** X15. After a successful [update_media] the lookup by that id returns
    the updated record, the lookup by any other id returns what it returned
    before, and repeating the same update changes nothing more. *)
Theorem update_media_then_lookup :
  forall (db : Session) (media_id : Z) (title text : string)
         (section_id : option Z),
    (exists m, In m (media db) /\ Media.id m = media_id) ->
    exists updated db',
      update_media media_id title text section_id db = (Return updated, db')
      /\ media_first_by_id media_id db' = Some updated
      /\ (forall other, other <> media_id ->
                        media_first_by_id other db' = media_first_by_id other db)
      /\ update_media media_id title text section_id db' = (Return updated, db').
Proof.
  intros db media_id title text section_id Hex.
  apply media_first_by_id_exists in Hex as (m & Hm).
  pose proof (media_first_by_id_Some _ _ _ Hm) as [_ Hid].
  unfold update_media at 1. unfold bind, query. rewrite Hm. simpl.
  do 2 eexists. split; [reflexivity|].
  set (assign := fun r : Media.t =>
         Media.mk (Media.id r) (Some title) (Media.file_url r) (Media.type r)
                  (Media.domain_id r) section_id (Media.uploaded_by r) text).
  set (f := fun r : Media.t => if (Media.id r =? Media.id m)%Z then assign r else r).
  assert (Hkey : forall r, Media.id (f r) = Media.id r)
    by (intros r; unfold f; now destruct (Media.id r =? Media.id m)%Z).
  assert (Hlook : forall k,
             media_first_by_id k (set_media (map f) db)
             = option_map f (media_first_by_id k db)).
  { intros k. unfold media_first_by_id. simpl.
    induction (media db) as [|r l IH]; simpl; [reflexivity|].
    rewrite Hkey. destruct (Media.id r =? k)%Z; simpl; [reflexivity | exact IH]. }
  assert (Hfm : f m = assign m) by (unfold f; now rewrite Z.eqb_refl).
  split; [|split].
  - rewrite Hlook, Hm. simpl. now rewrite Hfm.
  - intros other Hneq. rewrite Hlook.
    destruct (media_first_by_id other db) as [r|] eqn:Hr; [|reflexivity].
    apply media_first_by_id_Some in Hr as [_ Hr]. simpl. f_equal.
    unfold f. destruct (Z.eqb_spec (Media.id r) (Media.id m)); congruence.
  - unfold update_media, bind, query. rewrite Hlook, Hm.
    unfold commit, ret, set_media. simpl. rewrite Hfm. simpl.
    do 2 f_equal. rewrite map_map. apply map_ext. intros r.
    destruct (Z.eqb_spec (Media.id r) (Media.id m)) as [E|E]; simpl.
    + now rewrite E, Z.eqb_refl.
    + apply Z.eqb_neq in E. now rewrite E.
Qed.

(** X16. [get_media_by_section_and_user] is the conjunction of the two
    single filters: it returns the media of [get_media_by_section] that
    [get_media_by_user] returns too, in the same order; media without a
    section are never among them. *)
Theorem get_media_by_section_and_user_both :
  forall (db : Session) (section_id user_id : Z),
    get_media_by_section_and_user db section_id user_id
    = filter (fun m => (Media.uploaded_by m =? user_id)%Z)
             (get_media_by_section db section_id)
    /\ (forall m,
          In m (get_media_by_section_and_user db section_id user_id) <->
          In m (get_media_by_section db section_id)
          /\ In m (get_media_by_user db user_id))
    /\ (forall m,
          In m (get_media_by_section_and_user db section_id user_id) ->
          Media.section_id m = Some section_id).
Proof.
  intros db section_id user_id.
  unfold get_media_by_section_and_user, get_media_by_section, get_media_by_user.
  split; [|split].
  - induction (media db) as [|m l IH]; simpl; [reflexivity|].
    destruct (col_eqb (Media.section_id m) section_id); simpl; rewrite IH;
      reflexivity.
  - intros m. rewrite !filter_In, andb_true_iff. tauto.
  - intros m Hm. apply filter_In in Hm as [_ Hm].
    apply andb_true_iff in Hm as [Hs _]. now apply col_eqb_spec.
Qed.

(** ** What a failed call leaves behind, and what every store satisfies *)

Lemma for_each_raise_from_body {A} (body : A -> Crud unit) (xs : list A) :
  forall db e,
    fst (for_each xs body db) = Raise e ->
    exists x d, In x xs /\ fst (body x d) = Raise e.
Proof.
  induction xs as [|x xs IH]; intros db e; simpl; [discriminate|].
  unfold bind. destruct (body x db) as [[[]|e'] d] eqn:E.
  - intros H. destruct (IH _ _ H) as (y & d' & Hy & Hb).
    exists y, d'. split; [now right | assumption].
  - simpl. intros [= <-]. exists x, db. split; [now left | now rewrite E].
Qed.

Lemma create_section_raise (section : SectionCreate.t) (page_id : option Z)
      (db : Session) (e : HTTPException) :
  fst (create_section section page_id db) = Raise e ->
  e = InvalidArgument_section
  /\ snd (create_section section page_id db) = db.
Proof.
  unfold create_section.
  destruct (truthy_int page_id); simpl;
    destruct (truthy_str (SectionCreate.type section)); simpl;
    try discriminate; intros [= <-]; split; reflexivity.
Qed.

Section Calls.

Variable bcrypt_hashpw : string -> string -> string.
Variable bcrypt_checkpw : string -> string -> bool.

(** X17. The writing functions raise nothing but the five exceptions of the
    file, and every one of them except [create_page] is all-or-nothing: when
    the call raises, the store is exactly what it was. *)
Theorem failed_call_leaves_store :
  forall (call : Call) (db : Session) (e : HTTPException),
    call_raised bcrypt_hashpw bcrypt_checkpw call db = Some e ->
    (e = Conflict \/ e = Forbidden \/ e = InvalidArgument_section
     \/ e = InvalidArgument_media \/ e = NotFound)
    /\ ((forall page, call <> Call_create_page page) ->
        perform bcrypt_hashpw bcrypt_checkpw call db = db).
Proof.
  intros call db e. destruct call; simpl; unfold raised, store_after.
  - unfold create_user, bind, query.
    destruct (first _); simpl; [|discriminate].
    intros [= <-]. split; [now left | reflexivity].
  - unfold change_password.
    destruct (verify_password _ _ _); simpl; [discriminate|].
    intros [= <-]. split; [right; now left | reflexivity].
  - discriminate.
  - rewrite create_page_unfold. cbv zeta.
    destruct (for_each _ _ _) as [[[]|e'] d] eqn:E; simpl; [discriminate|].
    intros [= ->]. split; [|intros H; now destruct (H page)].
    assert (Hr : fst (for_each (given_sections page)
                   (fun section =>
                      create_section section
                        (Some (next_id (map Page.id (pages db)))) ;;; ret tt)
                   (set_pages (fun t => t ++
                      [Page.mk (next_id (map Page.id (pages db)))
                               (PageCreate.domain_id page) (PageCreate.title page)
                               (PageCreate.hierarchy page)]) db)) = Raise e)
      by (simpl in E; now rewrite E).
    apply for_each_raise_from_body in Hr as (x & d' & _ & Hb).
    assert (Hcs : fst (create_section x
                         (Some (next_id (map Page.id (pages db)))) d') = Raise e).
    { unfold bind in Hb.
      destruct (create_section x _ d') as [[r|e''] d'']; simpl in *;
        [discriminate | now injection Hb as ->]. }
    apply create_section_raise in Hcs as [-> _]. right; right; now left.
  - destruct (fst (create_section section page_id db)) as [r|e'] eqn:Hc;
      [discriminate|].
    intros [= ->]. destruct (create_section_raise _ _ _ _ Hc) as [-> Hs].
    split; [right; right; now left | now intros _].
  - discriminate.
  - unfold create_media.
    destruct (truthy_str (MediaCreate.title m)); simpl; [discriminate|].
    intros [= <-]. split; [right; right; right; now left | reflexivity].
  - unfold delete_media, bind, query.
    destruct (media_first_by_id media_id db); simpl; [discriminate|].
    intros [= <-]. split; [repeat right; reflexivity | reflexivity].
  - unfold update_media, bind, query.
    destruct (media_first_by_id media_id db); simpl; [discriminate|].
    intros [= <-]. split; [repeat right; reflexivity | reflexivity].
Qed.

(** X18. In every store built from the empty one by calls of the writing
    functions, no two users share an email; so the user that
    [authenticate_user] looks up for an email is the only user with it. *)
Theorem reachable_emails_unique :
  forall (calls : list Call),
    let db := run bcrypt_hashpw bcrypt_checkpw calls empty_session in
    NoDup (map User.email (users db))
    /\ (forall u v,
          In u (users db) -> In v (users db) ->
          User.email u = User.email v -> stored_user db (User.email v) u).
Proof.
  intros calls db.
  assert (Hinv : emails_unique db).
  { subst db. unfold run.
    assert (H : forall d, emails_unique d ->
              emails_unique (fold_left
                (fun d call => perform bcrypt_hashpw bcrypt_checkpw call d)
                calls d)).
    { induction calls as [|call calls IH]; intros d Hd; simpl; auto.
      apply IH. now apply perform_emails_unique. }
    apply H. constructor. }
  split; [exact Hinv|].
  intros u v Hu _ Heq. rewrite <- Heq.
  now apply stored_user_unique_email.
Qed.

End Calls.

(** ** Writes seen through the listings *)

(** X19. Creating a section under a page (typed, page id given and not 0)
    raises the section count of exactly that page by one in the summaries of
    [get_pages_by_user_id]: with unique page ids, the result lists the same
    owned pages as before, each with its former count, plus one for the page
    the section went to. *)
Theorem create_section_raises_count :
  forall (db : Session) (section : SectionCreate.t) (page_id user_id : Z),
    NoDup (map Page.id (pages db)) ->
    page_id <> 0 ->
    typed section ->
    exists row db',
      create_section section (Some page_id) db = (Return row, db')
      /\ Permutation
           (get_pages_by_user_id db' user_id)
           (map (fun p =>
                   PageSummary.mk (str (Page.id p)) (Page.title p)
                     (Page.hierarchy p)
                     (section_count db p
                      + (if (Page.id p =? page_id)%Z then 1 else 0)))
                (filter (page_owned_by db user_id) (pages db))).
Proof.
  intros db section page_id user_id Hnd Hnz Htyped.
  unfold create_section, truthy_int.
  apply Z.eqb_neq in Hnz. rewrite Hnz. simpl.
  unfold typed in Htyped. rewrite Htyped. simpl.
  do 2 eexists. split; [reflexivity|].
  rewrite get_pages_by_user_id_unfold by exact Hnd.
  rewrite <- order_by_hierarchy_perm, map_map. simpl.
  apply Permutation_refl'.
  apply map_ext. intros p. unfold row_of_page, section_count, sections_of_page.
  simpl. f_equal. rewrite filter_app, length_app. simpl.
  rewrite (Z.eqb_sym page_id (Page.id p)).
  destruct (Page.id p =? page_id)%Z; simpl; lia.
Qed.

(** X20. [update_media] moves a media between section listings.  Given a
    section, the updated record is listed by [get_media_by_section] for that
    section and no record of that id is listed for any other section; given
    no section, no record of that id is listed for any section. *)
Theorem update_media_moves_section :
  forall (db : Session) (media_id : Z) (title text : string)
         (section_id : option Z),
    (exists m, In m (media db) /\ Media.id m = media_id) ->
    exists updated db',
      update_media media_id title text section_id db = (Return updated, db')
      /\ (forall s, section_id = Some s ->
                    In updated (get_media_by_section db' s))
      /\ (forall s m, section_id <> Some s ->
                      In m (get_media_by_section db' s) ->
                      Media.id m <> media_id).
Proof.
  intros db media_id title text section_id Hex.
  apply media_first_by_id_exists in Hex as (found & Hfound).
  pose proof (media_first_by_id_Some _ _ _ Hfound) as [Hin Hid].
  unfold update_media, bind, query. rewrite Hfound. simpl.
  do 2 eexists. split; [reflexivity|]. split.
  - intros s ->. unfold get_media_by_section. simpl. apply filter_In. split.
    + apply in_map_iff. exists found. split; [|assumption].
      now rewrite Z.eqb_refl.
    + simpl. apply Z.eqb_refl.
  - intros s m Hneq Hm. unfold get_media_by_section in Hm. simpl in Hm.
    apply filter_In in Hm as [Hm Hsec].
    apply in_map_iff in Hm as (r & Hr & _).
    rewrite Hid in Hr.
    destruct (Z.eqb_spec (Media.id r) media_id) as [E|E].
    + subst m. simpl in Hsec. apply col_eqb_spec in Hsec. contradiction.
    + now subst m.
Qed.

(** ** The further properties at the sample store *)

Lemma authenticate_user_sound_witness :
  authenticate_user sample_checkpw sample_db "ann@example.org" "secret" = Some ann
  /\ stored_user sample_db "ann@example.org" ann
  /\ verify_password sample_checkpw "secret" (User.password ann) = true.
Proof.
  split; [reflexivity|].
  destruct (authenticate_user_sound sample_checkpw sample_db
              "ann@example.org" "secret" ann eq_refl) as (Hs & _ & _ & Hv).
  split; assumption.
Defined.

Lemma create_user_then_authenticate_witness :
  let user := UserCreate.mk "cleo@example.org" "opensesame" in
  (forall u, In u (users sample_db) -> User.email u <> UserCreate.email user)
  /\ exists row db',
      create_user sample_hashpw user "salt-3" sample_db = (Return row, db')
      /\ authenticate_user sample_checkpw db' "cleo@example.org" "opensesame"
         = Some row.
Proof.
  intros user.
  assert (H : forall u, In u (users sample_db) ->
                        User.email u <> UserCreate.email user).
  { simpl. intros u [<-|[<-|[]]]; discriminate. }
  split; [exact H|].
  destruct (create_user_then_authenticate sample_hashpw sample_checkpw
              sample_checkpw_hashpw sample_db user "salt-3" H)
    as (row & db' & Hrun & Hauth & _).
  exists row, db'. split; assumption.
Defined.

Lemma create_user_twice_conflict_witness :
  let user := UserCreate.mk "cleo@example.org" "opensesame" in
  let again := UserCreate.mk "cleo@example.org" "another" in
  UserCreate.email again = UserCreate.email user
  /\ create_user sample_hashpw again "salt-5"
       (store_after (create_user sample_hashpw user "salt-3") sample_db)
     = (Raise Conflict,
        store_after (create_user sample_hashpw user "salt-3") sample_db).
Proof.
  intros user again. split; [reflexivity|].
  exact (create_user_twice_conflict sample_hashpw sample_db user again
           "salt-3" "salt-5" eq_refl).
Defined.

Lemma create_user_then_get_user_witness :
  let user := UserCreate.mk "cleo@example.org" "opensesame" in
  (forall u, In u (users sample_db) -> User.email u <> UserCreate.email user)
  /\ exists row db',
      create_user sample_hashpw user "salt-3" sample_db = (Return row, db')
      /\ get_user db' (User.id row) = Some row
      /\ get_user sample_db (User.id row) = None.
Proof.
  intros user.
  assert (H : forall u, In u (users sample_db) ->
                        User.email u <> UserCreate.email user).
  { simpl. intros u [<-|[<-|[]]]; discriminate. }
  split; [exact H|].
  destruct (create_user_then_get_user sample_hashpw sample_db user "salt-3" H)
    as (row & db' & Hrun & Hget & Hold & _).
  exists row, db'. auto.
Defined.

Lemma change_password_then_authenticate_witness :
  stored_user sample_db (User.email ann) ann
  /\ verify_password sample_checkpw "secret" (User.password ann) = true
  /\ exists user' db',
      change_password sample_hashpw sample_checkpw ann "secret" "fresh"
                      "salt-4" sample_db = (Return user', db')
      /\ authenticate_user sample_checkpw db' (User.email ann) "fresh"
         = Some user'
      /\ authenticate_user sample_checkpw db' (User.email ann) "secret" = None.
Proof.
  assert (H : stored_user sample_db (User.email ann) ann).
  { exists [], [User.mk 2 "bob@example.org" (sample_hashpw "hunter2" "salt-2")].
    repeat split. intros u []. }
  split; [exact H|]. split; [reflexivity|].
  destruct (change_password_then_authenticate sample_hashpw sample_checkpw
              sample_checkpw_hashpw sample_db ann "secret" "fresh" "salt-4"
              H eq_refl)
    as (user' & db' & Hrun & _ & _ & _ & _ & _ & _ & Hnew & Hold).
  exists user', db'. split; [exact Hrun|]. split; [exact Hnew|].
  apply Hold. reflexivity.
Defined.

Lemma get_domains_by_user_id_first_owned_witness :
  get_domains_by_user_id sample_db 1 = Some (Domain.mk 1 1)
  /\ exists before after,
      domains sample_db = before ++ Domain.mk 1 1 :: after
      /\ Domain.user_id (Domain.mk 1 1) = 1
      /\ (forall x, In x before -> Domain.user_id x <> 1).
Proof.
  split; [reflexivity|].
  exact (proj1 (proj2 (get_domains_by_user_id_first_owned sample_db 1)
                  (Domain.mk 1 1)) eq_refl).
Defined.

Lemma create_domain_then_lookup_witness :
  exists row db',
    create_domain (DomainCreate.mk 1) sample_db = (Return row, db')
    /\ get_domain db' (Domain.id row) = Some row
    /\ get_domains_by_user_id db' 1 = Some (Domain.mk 1 1).
Proof.
  destruct (create_domain_then_lookup sample_db (DomainCreate.mk 1))
    as (row & db' & Hrun & _ & Hget & _ & Hfirst).
  exists row, db'. split; [exact Hrun|]. split; [exact Hget|]. exact Hfirst.
Defined.

Lemma create_seo_keeps_first_witness :
  get_seo_by_domain sample_db 1 = Some (SEO.mk 1 1)
  /\ exists row db',
      create_seo (SEOCreate.mk 1) sample_db = (Return row, db')
      /\ seo db' = seo sample_db ++ [row]
      /\ get_seo_by_domain db' 1 = Some (SEO.mk 1 1).
Proof.
  split; [reflexivity|].
  destruct (create_seo_keeps_first sample_db (SEOCreate.mk 1))
    as (row & db' & Hrun & _ & Hseo & Hkeep & _).
  exists row, db'. split; [exact Hrun|]. split; [exact Hseo|].
  apply Hkeep. reflexivity.
Defined.

Lemma create_page_attaches_sections_witness :
  let page :=
    PageCreate.mk 1 "Contact" 2
      (Some [SectionCreate.mk (Some 9) (Some "form") "Write us";
             SectionCreate.mk None (Some "map") "Find us"]) in
  Forall typed (given_sections page)
  /\ exists row new db',
      create_page page sample_db = (Return row, db')
      /\ pages db' = pages sample_db ++ [row]
      /\ sections db' = sections sample_db ++ new
      /\ map Section_.page_id new = [Some (Page.id row); Some (Page.id row)].
Proof.
  intros page.
  assert (H : Forall typed (given_sections page))
    by (repeat constructor).
  split; [exact H|].
  destruct (create_page_attaches_sections sample_db page H)
    as (row & new & db' & Hrun & _ & _ & _ & _ & Hp & Hs & Hpid & _).
  exists row, new, db'. auto.
Defined.

Lemma create_page_partial_on_untyped_section_witness :
  let good := SectionCreate.mk None (Some "form") "Write us" in
  let bad := SectionCreate.mk None (Some "") "Untyped" in
  let last := SectionCreate.mk None (Some "map") "Find us" in
  let page := PageCreate.mk 1 "Contact" 2 (Some [good; bad; last]) in
  given_sections page = [good] ++ bad :: [last]
  /\ Forall typed [good]
  /\ truthy_str (SectionCreate.type bad) = false
  /\ exists row new db',
      create_page page sample_db = (Raise InvalidArgument_section, db')
      /\ pages db' = pages sample_db ++ [row]
      /\ sections db' = sections sample_db ++ new
      /\ map Section_.title new = ["Write us"].
Proof.
  intros good bad last page.
  assert (Hpre : Forall typed [good]) by (repeat constructor).
  split; [reflexivity|]. split; [exact Hpre|]. split; [reflexivity|].
  destruct (create_page_partial_on_untyped_section sample_db page
              [good] [last] bad eq_refl Hpre eq_refl)
    as (row & new & db' & Hrun & _ & _ & Hp & Hs & _ & _ & Ht).
  exists row, new, db'. auto.
Defined.

Lemma create_section_then_listed_witness :
  let section := SectionCreate.mk None (Some "text") "Story" in
  (2 <> 0)%Z /\ typed section /\ page_belongs_to_user sample_db 2 1
  /\ exists row db',
      create_section section (Some 2) sample_db = (Return row, db')
      /\ get_sections_by_page_and_user db' 2 1
         = get_sections_by_page_and_user sample_db 2 1 ++ [row].
Proof.
  intros section.
  assert (Hown : page_belongs_to_user sample_db 2 1).
  { exists (Page.mk 2 2 "About" 0), (Domain.mk 2 1). simpl. intuition. }
  assert (Hnz : (2 <> 0)%Z) by discriminate.
  split; [exact Hnz|]. split; [reflexivity|]. split; [exact Hown|].
  destruct (create_section_then_listed sample_db section 2 Hnz eq_refl)
    as (row & db' & Hrun & Hlist & _).
  exists row, db'. split; [exact Hrun|]. exact (Hlist 1 Hown).
Defined.

Lemma user_without_domain_sees_nothing_witness :
  (forall d, In d (domains sample_db) -> Domain.user_id d <> 7)
  /\ get_domains_by_user_id sample_db 7 = None
  /\ get_pages_by_user_id sample_db 7 = []
  /\ (forall page_id, get_sections_by_page_and_user sample_db page_id 7 = []).
Proof.
  assert (H : forall d, In d (domains sample_db) -> Domain.user_id d <> 7).
  { simpl. intros d [<-|[<-|[<-|[]]]]; discriminate. }
  split; [exact H|].
  exact (user_without_domain_sees_nothing sample_db 7 H).
Defined.

Lemma create_media_requires_title_witness :
  let m := MediaCreate.mk (Some "Footer") "/files/footer.png" "image" 2 None 1
                          "footer" in
  truthy_str (MediaCreate.title m) = true
  /\ exists row db',
      create_media m sample_db = (Return row, db')
      /\ media_first_by_id (Media.id row) db' = Some row
      /\ In row (get_media_by_domain db' 2).
Proof.
  intros m. split; [reflexivity|].
  destruct (proj2 (create_media_requires_title sample_db m) eq_refl)
    as (row & db' & Hrun & _ & _ & _ & _ & Hfind & Hdom & _).
  exists row, db'. auto.
Defined.

Lemma update_media_then_lookup_witness :
  (exists m, In m (media sample_db) /\ Media.id m = 2)
  /\ exists updated db',
      update_media 2 "Banner (wide)" "wide banner" None sample_db
        = (Return updated, db')
      /\ media_first_by_id 2 db' = Some updated
      /\ media_first_by_id 1 db' = media_first_by_id 1 sample_db.
Proof.
  assert (H : exists m, In m (media sample_db) /\ Media.id m = 2).
  { eexists. split; [right; left; reflexivity | reflexivity]. }
  split; [exact H|].
  destruct (update_media_then_lookup sample_db 2 "Banner (wide)" "wide banner"
              None H)
    as (updated & db' & Hrun & Hfind & Hother & _).
  exists updated, db'. split; [exact Hrun|]. split; [exact Hfind|].
  apply Hother. discriminate.
Defined.

Lemma get_media_by_section_and_user_both_witness :
  let banner := Media.mk 2 (Some "Banner") "/files/banner.png" "image" 1
                         (Some 1) 1 "banner" in
  In banner (get_media_by_section sample_db 1)
  /\ In banner (get_media_by_user sample_db 1)
  /\ In banner (get_media_by_section_and_user sample_db 1 1).
Proof.
  intros banner.
  assert (Hs : In banner (get_media_by_section sample_db 1)) by (now left).
  assert (Hu : In banner (get_media_by_user sample_db 1))
    by (right; now left).
  split; [exact Hs|]. split; [exact Hu|].
  apply (proj1 (proj2 (get_media_by_section_and_user_both sample_db 1 1))).
  split; assumption.
Defined.

Lemma failed_call_leaves_store_witness :
  call_raised sample_hashpw sample_checkpw (Call_delete_media 9) sample_db
    = Some NotFound
  /\ perform sample_hashpw sample_checkpw (Call_delete_media 9) sample_db
     = sample_db.
Proof.
  split; [reflexivity|].
  apply (proj2 (failed_call_leaves_store sample_hashpw sample_checkpw
                  (Call_delete_media 9) sample_db NotFound eq_refl)).
  intros page. discriminate.
Defined.

Lemma reachable_emails_unique_witness :
  let calls :=
    [Call_create_user (UserCreate.mk "ann@example.org" "secret") "salt-1";
     Call_create_user (UserCreate.mk "ann@example.org" "again") "salt-2";
     Call_create_user (UserCreate.mk "bob@example.org" "hunter2") "salt-3"] in
  NoDup (map User.email
             (users (run sample_hashpw sample_checkpw calls empty_session))).
Proof.
  intros calls.
  exact (proj1 (reachable_emails_unique sample_hashpw sample_checkpw calls)).
Defined.

Lemma create_section_raises_count_witness :
  let section := SectionCreate.mk None (Some "text") "Story" in
  NoDup (map Page.id (pages sample_db)) /\ (2 <> 0)%Z /\ typed section
  /\ exists row db',
      create_section section (Some 2) sample_db = (Return row, db')
      /\ Permutation
           (get_pages_by_user_id db' 1)
           (map (fun p =>
                   PageSummary.mk (str (Page.id p)) (Page.title p)
                     (Page.hierarchy p)
                     (section_count sample_db p
                      + (if (Page.id p =? 2)%Z then 1 else 0)))
                (filter (page_owned_by sample_db 1) (pages sample_db))).
Proof.
  intros section.
  assert (Hnd : NoDup (map Page.id (pages sample_db))).
  { simpl. repeat constructor; simpl; intuition discriminate. }
  assert (Hnz : (2 <> 0)%Z) by discriminate.
  split; [exact Hnd|]. split; [exact Hnz|]. split; [reflexivity|].
  exact (create_section_raises_count sample_db section 2 1 Hnd Hnz eq_refl).
Defined.

Lemma update_media_moves_section_witness :
  (exists m, In m (media sample_db) /\ Media.id m = 1)
  /\ exists updated db',
      update_media 1 "Logo" "company logo" (Some 3) sample_db
        = (Return updated, db')
      /\ In updated (get_media_by_section db' 3).
Proof.
  assert (H : exists m, In m (media sample_db) /\ Media.id m = 1).
  { exists logo. split; [now left | reflexivity]. }
  split; [exact H|].
  destruct (update_media_moves_section sample_db 1 "Logo" "company logo"
              (Some 3) H)
    as (updated & db' & Hrun & Hin & _).
  exists updated, db'. split; [exact Hrun|]. now apply Hin.
Defined.
